(** * CryptoBeacon forecasting core: [backend/app/intelligence/forecast.py]

    A shallow embedding of the served forecasting path (scale normaliser,
    trend fallback, the model tiers and the orchestrator) together with the
    properties stated for it.

    Number model.  A Python float is embedded as the real number it holds.
    Where a value only flows on (scaling, descaling, the trend, the clamp,
    anchoring, the weighted sum) the arithmetic is exact.  The scale
    normaliser is different: there a rounding decides an outcome, since the
    mean is compared with 0.01, a quotient can overflow to [inf], which makes
    [round] raise, and [round] picks between two powers of ten.  So in the
    scale normaliser [np.mean], the float division and [np.log10] are the
    operations of binary64 as an interface, [Numerics], which fixes their
    accuracy and nothing else, and the quotient is a [float], finite or
    [inf]; every theorem holds for every implementation of the interface.

    Library model.  numpy's [arange], [linspace], [exp] and degree-1
    [polyfit] are defined from their documented meaning.  The third-party
    models (xgboost, prophet, pmdarima, keras, sklearn) are an interface,
    [Libs], whose operations may raise; every theorem about the model tiers
    is stated for an arbitrary implementation of it.

    Two levels.  The functions are first embedded on list values, with
    exceptions as a [result].  The orchestrator and the functions it calls
    are then embedded a second time over a store of mutable list objects
    passed by reference, to state what a call does to the caller's list; the
    two levels are related by [runs_generate_forecast]. *)

From Stdlib Require Import Reals Lra Lia ZArith List.
From stdpp Require Import gmap.
Import ListNotations.
Open Scope R_scope.

(** ** Exceptions *)

Inductive exn : Type :=
| IndexError     (* list index out of range *)
| OverflowError  (* [round] of an infinite float *)
| ModelError.    (* an import, fit or predict step of a model library raised *)

Inductive result (A : Type) : Type :=
| Ok (a : A)
| Raise (e : exn).
Arguments Ok {A} a.
Arguments Raise {A} e.

#[global] Instance result_ret : MRet result := fun _ a => Ok a.
#[global] Instance result_bind : MBind result := fun _ _ f m =>
  match m with
  | Ok a => f a
  | Raise e => Raise e
  end.

(** [prices[-1]] and [predictions[0]] *)
Definition py_last (xs : list R) : result R :=
  match last xs with
  | Some x => Ok x
  | None => Raise IndexError
  end.

Definition py_first (xs : list R) : result R :=
  match head xs with
  | Some x => Ok x
  | None => Raise IndexError
  end.

(** [xs[i]] for a non-negative index *)
Definition py_nth {A : Type} (xs : list A) (i : nat) : result A :=
  match nth_error xs i with
  | Some x => Ok x
  | None => Raise IndexError
  end.

(** [[x] * n]: no element when [n <= 0] *)
Definition py_repeat (x : R) (n : Z) : list R := repeat x (Z.to_nat n).

(** the builtin [sum], a left fold from 0 *)
Definition py_sum (xs : list R) : R := fold_left Rplus xs 0.

(** [xs[-n:]] for [0 <= n]: the last [n] elements, all of them when
    [n >= len(xs)], and all of them when [n = 0] ([xs[-0:]] is [xs[0:]]) *)
Definition py_suffix {A : Type} (n : nat) (xs : list A) : list A :=
  match n with
  | O => xs
  | _ => skipn (length xs - n) xs
  end.

(** ** numpy *)

(** The arithmetic mean and the decimal logarithm, as mathematical
    functions. *)
Definition mean (xs : list R) : R := fold_right Rplus 0 xs / INR (length xs).

Definition log10 (x : R) : R := ln x / ln 10.

(** [round] of a finite float: the nearest integer, ties to the even one *)
Definition py_round (x : R) : Z :=
  let f := Int_part x in
  let d := frac_part x in
  if Rlt_dec d (1 / 2) then f
  else if Rlt_dec (1 / 2) d then (f + 1)%Z
  else if Z.even f then f else (f + 1)%Z.

(** What [round] is to return, in the words of its documentation: the
    integer closest to [x], the even one when two are equally close. *)
Definition nearest_integer (x : R) (k : Z) : Prop :=
  Rabs (IZR k - x) <= 1 / 2 /\
  (Rabs (IZR k - x) = 1 / 2 -> Z.even k = true).

Definition np_arange (n : nat) : list R := map INR (seq 0 n).

(** [np.linspace(0, 1, n)] *)
Definition np_linspace01 (n : nat) : list R :=
  map (fun i => INR i / INR (n - 1)) (seq 0 n).

Definition dot (xs ys : list R) : R :=
  fold_right Rplus 0 (map (fun p => fst p * snd p) (combine xs ys)).

(** [np.polyfit(x, y, 1, w=w)]: the line [a * x + b] minimising
    [sum (w_i * (y_i - (a * x_i + b)))^2], returned as [(a, b)]. *)
Definition np_polyfit1 (x y w : list R) : R * R :=
  let w2 := map (fun wi => wi * wi) w in
  let s := fold_right Rplus 0 w2 in
  let sx := dot w2 x in
  let sy := dot w2 y in
  let sxx := dot w2 (map (fun xi => xi * xi) x) in
  let sxy := dot w2 (map (fun p => fst p * snd p) (combine x y)) in
  let den := s * sxx - sx * sx in
  ((s * sxy - sx * sy) / den, (sxx * sy - sx * sxy) / den).

(** ** binary64

    The standard model of a binary64 operation away from overflow and
    underflow: the result [y] of an operation whose exact value is [x]
    satisfies [y = x * (1 + d)] for some [|d| <= 2^-53]. *)
Definition unit_roundoff : R := / 9007199254740992.

Definition rounds_to (x y : R) : Prop :=
  exists d, Rabs d <= unit_roundoff /\ y = x * (1 + d).

(** Halfway between the largest float, [(2 - 2^-52) * 2^1023], and [2^1024]:
    an exact value rounds to [inf] when it reaches this threshold. *)
Definition float_overflow : R := (2 - / 2 ^ 53) * 2 ^ 1023.

(** The binary64 operations of the scale normaliser.  [np_mean] is
    [np.mean] of a list of floats, [fl_div] the quotient of two floats when
    it is finite, [fl_log10] is [np.log10] of a finite float.  The laws are
    the accuracy binary64 has on the ranges named: a sum of up to a million
    positive floats between [1e-300] and [1e300] neither overflows nor
    leaves the normal range, and each of its additions and the division by
    the count is rounded to nearest; a quotient between 1 and the overflow
    threshold is rounded to nearest; a library logarithm is good to a few
    units in the last place, far inside [1e-9] for a result below 309.  The
    bound on the mean, about [1.2e-10] in binary64, is stated as [1e-9]: it
    leaves room for a decimal literal such as [0.000018] standing for the
    float nearest to it.

    [np.mean] returns NaN on a list that holds one, and [inf] when the sum
    overflows.  Every comparison with NaN is false, so NaN takes the
    branches of a value that is not positive, and [inf] takes those of a
    value that is at least 0.01: a real [np_mean] covers both. *)
Class Numerics : Type := {
  np_mean : list R -> R;
  fl_div : R -> R -> R;
  fl_log10 : R -> R;
  np_mean_accurate : forall xs : list R,
    xs <> [] -> (Z.of_nat (length xs) <= 1000000)%Z ->
    Forall (fun x => 1e-300 <= x <= 1e300) xs ->
    Rabs (np_mean xs - mean xs) <= 1e-9 * mean xs;
  fl_div_rounds : forall x y : R,
    0 < y -> 1 <= x / y < float_overflow -> rounds_to (x / y) (fl_div x y);
  fl_log10_accurate : forall x : R,
    1 <= x -> Rabs (fl_log10 x - log10 x) <= 1e-9
}.

(** A float of the scale normaliser: finite, or [inf]. *)
Inductive float : Type :=
| Finite (x : R)
| Inf.

(** ** Scale normaliser *)

Section ScaleNormaliser.
Context {N : Numerics}.

(** [x / y] for positive [x] and [y] *)
Definition float_div (x y : R) : float :=
  if Rle_dec float_overflow (x / y) then Inf else Finite (fl_div x y).

(** [np.log10(inf)] is [inf] *)
Definition np_log10 (x : float) : float :=
  match x with
  | Finite x => Finite (fl_log10 x)
  | Inf => Inf
  end.

(** [round(x)]: [round(inf)] raises [OverflowError] *)
Definition round_float (x : float) : result Z :=
  match x with
  | Finite x => Ok (py_round x)
  | Inf => Raise OverflowError
  end.

(** [10 ** k] is an integer for [k >= 0], and no other [k] arises here. *)
Definition _calculate_scale_factor (prices : list R) : result R :=
  match prices with
  | [] => Ok 1.0
  | _ =>
    let avg_price := np_mean prices in
    if Rle_dec 0.01 avg_price then Ok 1.0
    else
      let target_price := 10.0 in
      let scale_factor :=
        if Rlt_dec 0 avg_price then float_div target_price avg_price
        else Finite 1.0 in
      k ← round_float (np_log10 scale_factor);
      Ok (powerRZ 10 k)
  end.

End ScaleNormaliser.

Definition _scale_prices (prices : list R) (scale_factor : R) : list R :=
  map (fun p => p * scale_factor) prices.

Definition _descale_prices (prices : list R) (scale_factor : R) : list R :=
  map (fun p => p / scale_factor) prices.

(** ** Trend fallback *)

(** The forecast loop of [_simple_fallback]: [i] is the loop index, [n] the
    number of iterations left. *)
Fixpoint fallback_loop (slope current_price : R) (i n : nat) (last_price : R)
  : list R :=
  match n with
  | O => []
  | S n' =>
    let trend_change := slope * (1 - 0.05 * INR i) in
    let next_price := last_price + trend_change in
    let next_price := Rmax next_price (current_price * 0.8) in
    let next_price := Rmin next_price (current_price * 1.2) in
    next_price :: fallback_loop slope current_price (S i) n' next_price
  end.

Definition fallback_slope (prices : list R) : R :=
  let window := Nat.min 14 (length prices) in
  let recent_prices := py_suffix window prices in
  let x := np_arange (length recent_prices) in
  let weights := map exp (np_linspace01 (length recent_prices)) in
  let coefficients := np_polyfit1 x recent_prices weights in
  fst coefficients * 0.6.

Definition _simple_fallback (prices : list R) (days : Z) : result (list R) :=
  if (length prices <? 2)%nat then
    p ← py_last prices; Ok (py_repeat p days)
  else
    current_price ← py_last prices;
    let slope := fallback_slope prices in
    Ok (fallback_loop slope current_price 0 (Z.to_nat days) current_price).

(** ** Third-party model libraries

    Each operation stands for the library calls named beside it; [Raise]
    covers a failed import as well as a failure inside the library.  An
    operation is a function of its arguments: the interface describes the
    libraries as they answer during one run. *)

Class Libs : Type := {
  (* xgboost: [create_features], [dropna], target column, [XGBRegressor.fit] *)
  XGBModel : Type;
  FeatureRow : Type;
  xgb_fit : list R -> result XGBModel;
  (* [create_features(current_prices).dropna()] and its last row, [None]
     when no row is left *)
  last_features : list R -> result (option FeatureRow);
  xgb_predict : XGBModel -> FeatureRow -> result R;
  (* prophet: fit, predict, [forecast.tail(days)['yhat'].tolist()] *)
  prophet_yhat : list R -> Z -> result (list R);
  (* pmdarima: [auto_arima(prices, ...).predict(n_periods=days).tolist()] *)
  arima_predict : list R -> Z -> result (list R);
  (* sklearn [MinMaxScaler] and the keras network *)
  Scaler : Type;
  LSTMModel : Type;
  scaler_fit : list R -> result Scaler;
  scaler_transform : Scaler -> R -> R;
  scaler_inverse : Scaler -> R -> R;
  lstm_fit : list R -> nat -> result LSTMModel;
  lstm_predict : LSTMModel -> list R -> result R
}.

(** No model library can be imported. *)
Definition libs_unavailable : Libs := {|
  XGBModel := unit;
  FeatureRow := unit;
  xgb_fit := fun _ => Raise ModelError;
  last_features := fun _ => Raise ModelError;
  xgb_predict := fun _ _ => Raise ModelError;
  prophet_yhat := fun _ _ => Raise ModelError;
  arima_predict := fun _ _ => Raise ModelError;
  Scaler := unit;
  LSTMModel := unit;
  scaler_fit := fun _ => Raise ModelError;
  scaler_transform := fun _ x => x;
  scaler_inverse := fun _ x => x;
  lstm_fit := fun _ _ => Raise ModelError;
  lstm_predict := fun _ _ => Raise ModelError
|}.

(** Every library is present and every model predicts the constant [c]. *)
Definition libs_constant (c : R) : Libs := {|
  XGBModel := unit;
  FeatureRow := unit;
  xgb_fit := fun _ => Ok tt;
  last_features := fun _ => Ok (Some tt);
  xgb_predict := fun _ _ => Ok c;
  prophet_yhat := fun _ days => Ok (py_repeat c days);
  arima_predict := fun _ days => Ok (py_repeat c days);
  Scaler := unit;
  LSTMModel := unit;
  scaler_fit := fun _ => Ok tt;
  scaler_transform := fun _ x => x;
  scaler_inverse := fun _ x => x;
  lstm_fit := fun _ _ => Ok tt;
  lstm_predict := fun _ _ => Ok c
|}.

(** No model library can be imported except pmdarima, whose forecast comes
    back empty. *)
Definition libs_short_arima : Libs := {|
  XGBModel := unit;
  FeatureRow := unit;
  xgb_fit := fun _ => Raise ModelError;
  last_features := fun _ => Raise ModelError;
  xgb_predict := fun _ _ => Raise ModelError;
  prophet_yhat := fun _ _ => Raise ModelError;
  arima_predict := fun _ _ => Ok [];
  Scaler := unit;
  LSTMModel := unit;
  scaler_fit := fun _ => Raise ModelError;
  scaler_transform := fun _ x => x;
  scaler_inverse := fun _ x => x;
  lstm_fit := fun _ _ => Raise ModelError;
  lstm_predict := fun _ _ => Raise ModelError
|}.

Section Forecasters.
Context {L : Libs} {N : Numerics}.

(** The anchoring step shared by the model tiers:
    [offset = current_price - predictions[0]; [p + offset for p in predictions]] *)
Definition anchor (prices predictions : list R) : result (list R) :=
  current_price ← py_last prices;
  predicted_start ← py_first predictions;
  let offset := current_price - predicted_start in
  Ok (map (fun p => p + offset) predictions).

(** *** Tree-based forecaster *)

(** The iterative prediction loop, [n] iterations left. *)
Fixpoint xgb_iterate (model : XGBModel) (n : nat)
    (current_prices predictions : list R) : result (list R) :=
  match n with
  | O => Ok predictions
  | S n' =>
    temp_df ← last_features current_prices;
    match temp_df with
    | None =>
      p ← py_last current_prices;
      xgb_iterate model n' current_prices (predictions ++ [p])
    | Some row =>
      next_pred ← xgb_predict model row;
      xgb_iterate model n' (current_prices ++ [next_pred])
                  (predictions ++ [next_pred])
    end
  end.

Definition _xgboost_forecast (prices : list R) (days : Z) : result (list R) :=
  model ← xgb_fit prices;
  predictions ← xgb_iterate model (Z.to_nat days) prices [];
  anchor prices predictions.

(** *** Statistical forecaster *)

Definition _prophet_forecast (prices : list R) (days : Z) : result (list R) :=
  predictions ← prophet_yhat prices days;
  anchor prices predictions.

(** *** Sequence-model forecaster *)

Fixpoint lstm_iterate (model : LSTMModel) (n : nat)
    (current_sequence predictions : list R) : result (list R) :=
  match n with
  | O => Ok predictions
  | S n' =>
    next_pred ← lstm_predict model current_sequence;
    lstm_iterate model n' (tail current_sequence ++ [next_pred])
                 (predictions ++ [next_pred])
  end.

Definition _lstm_forecast (prices : list R) (days : Z) (lookback : nat)
  : result (list R) :=
  scaler ← scaler_fit prices;
  let scaled_data := map (scaler_transform scaler) prices in
  model ← lstm_fit scaled_data lookback;
  let current_sequence := py_suffix lookback scaled_data in
  predictions ← lstm_iterate model (Z.to_nat days) current_sequence [];
  let predictions := map (scaler_inverse scaler) predictions in
  anchor prices predictions.

(** *** Ensemble combiner *)

(** [try: member; predictions_list.append(...); weights.append(w)
     except: pass] *)
Definition try_member (member : result (list R)) (w : R)
    (acc : list (list R) * list R) : list (list R) * list R :=
  match member with
  | Ok pred => (fst acc ++ [pred], snd acc ++ [w])
  | Raise _ => acc
  end.

(** [sum(predictions_list[i][day] * weights[i] for i in range(len(predictions_list)))] *)
Fixpoint day_terms (predictions_list : list (list R)) (weights : list R)
    (day : nat) (idx : list nat) : result (list R) :=
  match idx with
  | [] => Ok []
  | i :: idx' =>
    pred ← py_nth predictions_list i;
    v ← py_nth pred day;
    w ← py_nth weights i;
    rest ← day_terms predictions_list weights day idx';
    Ok (v * w :: rest)
  end.

Fixpoint ensemble_loop (predictions_list : list (list R)) (weights : list R)
    (day n : nat) : result (list R) :=
  match n with
  | O => Ok []
  | S n' =>
    terms ← day_terms predictions_list weights day
                      (seq 0 (length predictions_list));
    rest ← ensemble_loop predictions_list weights (S day) n';
    Ok (py_sum terms :: rest)
  end.

Definition _ensemble_forecast (prices : list R) (days : Z) : result (list R) :=
  let acc := ([], []) in
  let acc := try_member (_prophet_forecast prices days) 0.4 acc in
  let acc := try_member (arima_predict prices days) 0.35 acc in
  let acc := try_member (_simple_fallback prices days) 0.25 acc in
  let predictions_list := fst acc in
  let weights := snd acc in
  match predictions_list with
  | [] => p ← py_last prices; Ok (py_repeat p days)
  | _ =>
    let total_weight := py_sum (firstn (length predictions_list) weights) in
    let weights :=
      map (fun w => w / total_weight)
          (firstn (length predictions_list) weights) in
    ensemble ← ensemble_loop predictions_list weights 0 (Z.to_nat days);
    anchor prices ensemble
  end.

(** *** Orchestrator *)

(** [_descale_prices(forecast, scale_factor) if scale_factor > 1 else forecast] *)
Definition descale_if (forecast : list R) (scale_factor : R) : list R :=
  if Rlt_dec 1 scale_factor then _descale_prices forecast scale_factor
  else forecast.

Definition generate_forecast (prices : list R) (days : Z) : result (list R) :=
  match prices with
  | [] => Ok []
  | _ =>
    if (length prices <? 30)%nat then _simple_fallback prices days
    else
      scale_factor ← _calculate_scale_factor prices;
      let scaled_prices :=
        if Rlt_dec 1 scale_factor then _scale_prices prices scale_factor
        else prices in
      match _xgboost_forecast scaled_prices days with
      | Ok forecast => Ok (descale_if forecast scale_factor)
      | Raise _ =>
        match _ensemble_forecast scaled_prices days with
        | Ok forecast => Ok (descale_if forecast scale_factor)
        | Raise _ =>
          match _lstm_forecast scaled_prices days 30 with
          | Ok forecast => Ok (descale_if forecast scale_factor)
          | Raise _ =>
            forecast ← _simple_fallback scaled_prices days;
            Ok (descale_if forecast scale_factor)
          end
        end
      end
  end.

End Forecasters.

(** ** The same path over a store of list objects

    Python lists are mutable objects passed by reference.  Here a list is a
    cell of a store, a function receives and returns references, and
    [list.append] updates a cell in place.  Whatever only reads its
    argument ([len], indexing, slicing, [np.array], [np.mean], a
    comprehension over it) loads the cell and computes as above. *)

Abbreviation loc := positive.
Abbreviation store := (gmap positive (list R)).

Definition St (A : Type) : Type := store -> result A * store.

#[global] Instance st_ret : MRet St := fun _ a h => (Ok a, h).
#[global] Instance st_bind : MBind St := fun _ _ f m h =>
  match m h with
  | (Ok a, h') => f a h'
  | (Raise e, h') => (Raise e, h')
  end.

Definition lift {A : Type} (r : result A) : St A := fun h => (r, h).

(** [try: body except Exception: handler]; what [body] did to the store
    before it raised stays done. *)
Definition try_except {A : Type} (body handler : St A) : St A := fun h =>
  match body h with
  | (Ok a, h') => (Ok a, h')
  | (Raise _, h') => handler h'
  end.

(** the elements of the list object at [l] *)
Definition load (l : loc) : St (list R) := fun h => (Ok (default [] (h !! l)), h).

(** a new list object *)
Definition alloc (xs : list R) : St loc := fun h =>
  let l := fresh (dom h) in (Ok l, <[l := xs]> h).

(** [l.append(x)] *)
Definition append (l : loc) (x : R) : St unit := fun h =>
  (Ok tt, alter (fun xs => xs ++ [x]) l h).

Section StoreForecasters.
Context {L : Libs} {N : Numerics}.

Definition _calculate_scale_factor_st (prices : loc) : St R :=
  xs ← load prices; lift (_calculate_scale_factor xs).

Definition _scale_prices_st (prices : loc) (scale_factor : R) : St loc :=
  xs ← load prices; alloc (map (fun p => p * scale_factor) xs).

Definition _descale_prices_st (prices : loc) (scale_factor : R) : St loc :=
  xs ← load prices; alloc (map (fun p => p / scale_factor) xs).

Definition _simple_fallback_st (prices : loc) (days : Z) : St loc :=
  xs ← load prices;
  forecast ← lift (_simple_fallback xs days);
  alloc forecast.

(** The prediction loop: [current_prices] is a list object that grows by
    [append]; [predictions] is local to the loop. *)
Fixpoint xgb_iterate_st (model : XGBModel) (n : nat) (current_prices : loc)
    (predictions : list R) : St (list R) :=
  match n with
  | O => mret predictions
  | S n' =>
    cp ← load current_prices;
    temp_df ← lift (last_features cp);
    match temp_df with
    | None =>
      p ← lift (py_last cp);
      xgb_iterate_st model n' current_prices (predictions ++ [p])
    | Some row =>
      next_pred ← lift (xgb_predict model row);
      _ ← append current_prices next_pred;
      xgb_iterate_st model n' current_prices (predictions ++ [next_pred])
    end
  end.

Definition _xgboost_forecast_st (prices : loc) (days : Z) : St loc :=
  xs ← load prices;
  model ← lift (xgb_fit xs);
  current_prices ← alloc xs;  (* [current_prices = list(prices)] *)
  predictions ← xgb_iterate_st model (Z.to_nat days) current_prices [];
  xs ← load prices;
  predictions ← lift (anchor xs predictions);
  alloc predictions.

Definition _ensemble_forecast_st (prices : loc) (days : Z) : St loc :=
  xs ← load prices;
  ensemble ← lift (_ensemble_forecast xs days);
  alloc ensemble.

Definition _lstm_forecast_st (prices : loc) (days : Z) (lookback : nat)
  : St loc :=
  xs ← load prices;
  predictions ← lift (_lstm_forecast xs days lookback);
  alloc predictions.

Definition descale_if_st (forecast : loc) (scale_factor : R) : St loc :=
  if Rlt_dec 1 scale_factor then _descale_prices_st forecast scale_factor
  else mret forecast.

Definition generate_forecast_st (prices : loc) (days : Z) : St loc :=
  xs ← load prices;
  match xs with
  | [] => alloc []
  | _ =>
    if (length xs <? 30)%nat then _simple_fallback_st prices days
    else
      scale_factor ← _calculate_scale_factor_st prices;
      scaled_prices ←
        (if Rlt_dec 1 scale_factor then _scale_prices_st prices scale_factor
         else mret prices);  (* [scaled_prices = prices]: the same object *)
      try_except
        (forecast ← _xgboost_forecast_st scaled_prices days;
         descale_if_st forecast scale_factor)
        (try_except
           (forecast ← _ensemble_forecast_st scaled_prices days;
            descale_if_st forecast scale_factor)
           (try_except
              (forecast ← _lstm_forecast_st scaled_prices days 30;
               descale_if_st forecast scale_factor)
              (forecast ← _simple_fallback_st scaled_prices days;
               descale_if_st forecast scale_factor)))
  end.

End StoreForecasters.

(** ** Specification vocabulary for the store *)

(** What a store-level function returns, against the value [v] of its
    value-level counterpart: a reference to a list holding the same
    elements, or the same exception. *)
Definition returns_list (r : result loc) (h : store) (v : result (list R))
  : Prop :=
  match v with
  | Ok out => exists l, r = Ok l /\ h !! l = Some out
  | Raise e => r = Raise e
  end.

(** [m], run in [h], leaves every list of [h0] as it was and returns [v]. *)
Definition runs_to (h0 : store) (m : St loc) (h : store)
    (v : result (list R)) : Prop :=
  h0 ⊆ (m h).2 /\ returns_list (m h).1 (m h).2 v.

Definition then_descale (v : result (list R)) (sf : R)
  : result (list R) :=
  match v with
  | Ok f => Ok (descale_if f sf)
  | Raise e => Raise e
  end.

(** ** Exact arithmetic

    The real numbers implement the binary64 interface: every operation
    returns its exact value.  The concrete runs below are made with it. *)
Definition exact_numerics : Numerics.
Proof.
  refine {| np_mean := mean; fl_div := Rdiv; fl_log10 := log10 |}.
  - intros xs Hne _ Hall.
    replace (mean xs - mean xs) with 0 by ring. rewrite Rabs_R0.
    assert (Hsum : 0 <= fold_right Rplus 0 xs).
    { clear Hne. induction Hall as [ | x xs' [Hx _] _ IH]; simpl; [lra | ].
      assert (0 < 1e-300) by lra. lra. }
    assert (Hlen : 0 < INR (length xs))
      by (apply lt_0_INR; destruct xs; [contradiction | simpl; lia]).
    unfold mean. apply Rmult_le_pos; [lra | ].
    apply Rmult_le_pos; [exact Hsum | ].
    apply Rlt_le, Rinv_0_lt_compat. exact Hlen.
  - intros x y _ _. exists 0. split; [ | ring].
    rewrite Rabs_R0. unfold unit_roundoff. lra.
  - intros x _. replace (log10 x - log10 x) with 0 by ring.
    rewrite Rabs_R0. lra.
Defined.

(** ** Sample inputs *)

(** The series of [test_forecasting] in [test_intelligence.py]. *)
Definition test_prices : list R :=
  [100.0; 102.0; 104.0; 103.0; 105.0; 107.0; 110.0; 112.0; 115.0; 118.0].

(** Thirty days at one price: long enough for the model tiers. *)
Definition flat_prices : list R := repeat 100.0 30.

(** * Properties *)

(** ** Rounding and decimal logarithms *)

Lemma ln10_pos : 0 < ln 10.
Proof. rewrite <- ln_1. apply ln_increasing; lra. Qed.

Lemma ln_powerRZ10 (z : Z) : ln (powerRZ 10 z) = IZR z * ln 10.
Proof. rewrite powerRZ_Rpower by lra. apply ln_Rpower. Qed.

Lemma ln_le_inv (a b : R) : 0 < a -> 0 < b -> ln a <= ln b -> a <= b.
Proof.
  intros Ha Hb Hln. destruct (Rle_or_lt a b) as [Hab | Hba]; [exact Hab | ].
  apply (ln_increasing b a Hb) in Hba. lra.
Qed.

Lemma ln_square (x : R) : 0 < x -> ln (x * x) = 2 * ln x.
Proof. intros Hx. rewrite ln_mult by assumption. ring. Qed.

Lemma py_round_near (x : R) :
  IZR (py_round x) - 1 / 2 <= x <= IZR (py_round x) + 1 / 2.
Proof.
  unfold py_round.
  pose proof (Rplus_Int_part_frac_part x) as Hsplit.
  pose proof (base_fp x) as [Hlo Hhi].
  destruct (Rlt_dec (frac_part x) (1 / 2)) as [Hd | Hd].
  - lra.
  - destruct (Rlt_dec (1 / 2) (frac_part x)) as [Hu | Hu].
    + rewrite plus_IZR. lra.
    + destruct (Z.even (Int_part x)); [ | rewrite plus_IZR]; lra.
Qed.

Lemma py_round_unique (x : R) (k : Z) :
  IZR k - 1 / 2 < x < IZR k + 1 / 2 -> py_round x = k.
Proof.
  intros [Hlo Hhi].
  pose proof (py_round_near x) as [Hnl Hnu].
  assert (Hlt : (py_round x < k + 1)%Z) by (apply lt_IZR; rewrite plus_IZR; lra).
  assert (Hgt : (k < py_round x + 1)%Z) by (apply lt_IZR; rewrite plus_IZR; lra).
  lia.
Qed.

Lemma py_round_0 : py_round 0 = 0%Z.
Proof. apply py_round_unique. simpl. lra. Qed.

Lemma Rabs_bounds (x b : R) : Rabs x <= b -> - b <= x <= b.
Proof. unfold Rabs. destruct (Rcase_abs x); lra. Qed.

(** A tie is rounded to the even neighbour. *)
Lemma py_round_tie_even (x : R) :
  Rabs (IZR (py_round x) - x) = 1 / 2 -> Z.even (py_round x) = true.
Proof.
  unfold py_round.
  pose proof (Rplus_Int_part_frac_part x) as Hsplit.
  pose proof (base_fp x) as [Hlo Hhi].
  destruct (Rlt_dec (frac_part x) (1 / 2)) as [Hd | Hd].
  - intros H. exfalso. revert H. unfold Rabs. destruct (Rcase_abs _); lra.
  - destruct (Rlt_dec (1 / 2) (frac_part x)) as [Hu | Hu].
    + intros H. exfalso. revert H. rewrite plus_IZR.
      unfold Rabs. destruct (Rcase_abs _); lra.
    + destruct (Z.even (Int_part x)) eqn:Ev; intros _; [exact Ev | ].
      rewrite Z.add_1_r, Z.even_succ, <- Z.negb_even, Ev. reflexivity.
Qed.

Lemma py_round_nearest (x : R) : nearest_integer x (py_round x).
Proof.
  split; [ | apply py_round_tie_even].
  pose proof (py_round_near x). apply Rabs_le. lra.
Qed.

Lemma ln_le_mono (x y : R) : 0 < x -> x <= y -> ln x <= ln y.
Proof.
  intros Hx [Hlt | ->]; [ | lra]. apply Rlt_le, ln_increasing; assumption.
Qed.

Lemma ln10_gt_1 : 1 < ln 10.
Proof.
  rewrite <- (ln_exp 1). apply ln_increasing; [apply exp_pos | ].
  pose proof exp_le_3. lra.
Qed.

Lemma log10_1 : log10 1 = 0.
Proof. unfold log10. rewrite ln_1. unfold Rdiv. ring. Qed.

Lemma log10_10 : log10 10 = 1.
Proof. unfold log10. field. pose proof ln10_pos. lra. Qed.

Lemma log10_powerRZ (k : Z) : log10 (powerRZ 10 k) = IZR k.
Proof.
  unfold log10. rewrite ln_powerRZ10. field. pose proof ln10_pos. lra.
Qed.

Lemma log10_mult (x y : R) :
  0 < x -> 0 < y -> log10 (x * y) = log10 x + log10 y.
Proof.
  intros Hx Hy. unfold log10. rewrite ln_mult by assumption.
  field. pose proof ln10_pos. lra.
Qed.

Lemma log10_pow (x : R) (n : nat) : 0 < x -> log10 (x ^ n) = INR n * log10 x.
Proof.
  intros Hx. unfold log10. rewrite ln_pow by assumption.
  field. pose proof ln10_pos. lra.
Qed.

Lemma log10_le (x y : R) : 0 < x -> x <= y -> log10 x <= log10 y.
Proof.
  intros Hx Hxy. unfold log10. pose proof ln10_pos as Hl.
  apply Rmult_le_compat_r; [apply Rlt_le, Rinv_0_lt_compat; exact Hl | ].
  destruct Hxy as [Hlt | ->]; [ | lra].
  apply Rlt_le, ln_increasing; assumption.
Qed.

Lemma log10_lt (x y : R) : 0 < x -> x < y -> log10 x < log10 y.
Proof.
  intros Hx Hxy. unfold log10. pose proof ln10_pos as Hl.
  apply Rmult_lt_compat_r; [apply Rinv_0_lt_compat; exact Hl | ].
  apply ln_increasing; assumption.
Qed.

Lemma log10_le_inv (x y : R) : 0 < x -> 0 < y -> log10 x <= log10 y -> x <= y.
Proof.
  intros Hx Hy H. destruct (Rle_or_lt x y) as [Hle | Hlt]; [exact Hle | ].
  apply (log10_lt y x Hy) in Hlt. lra.
Qed.

(** A rounding moves the decimal logarithm by less than [1e-9]. *)
Lemma log10_rounded (x y : R) :
  0 < x -> rounds_to x y -> 0 < y /\ Rabs (log10 y - log10 x) <= 1e-9.
Proof.
  intros Hx (d & Hd & ->). apply Rabs_bounds in Hd. unfold unit_roundoff in Hd.
  set (u := / 9007199254740992) in *.
  assert (Hu : 0 < u <= 1e-10) by (unfold u; split; lra).
  assert (H1d : 0 < 1 + d) by lra.
  split; [apply Rmult_lt_0_compat; assumption | ].
  rewrite log10_mult by assumption.
  replace (log10 x + log10 (1 + d) - log10 x) with (log10 (1 + d)) by ring.
  assert (Hup : ln (1 + d) <= d).
  { apply Rle_trans with (ln (exp d)); [ | rewrite ln_exp; lra].
    apply ln_le_mono; [lra | apply exp_ineq1_le]. }
  assert (Hdn : - (2 * u) <= ln (1 + d)).
  { apply Rle_trans with (ln (exp (- (2 * u)))); [rewrite ln_exp; lra | ].
    apply ln_le_mono; [apply exp_pos | ].
    rewrite exp_Ropp. pose proof (exp_ineq1_le (2 * u)) as He.
    assert (Hinv : / exp (2 * u) <= / (1 + 2 * u))
      by (apply Rinv_le_contravar; lra).
    assert (Hfrac : / (1 + 2 * u) <= 1 - u).
    { apply (Rmult_le_reg_r (1 + 2 * u)); [lra | ].
      rewrite Rinv_l by lra. nra. }
    lra. }
  pose proof ln10_gt_1 as Hl.
  assert (Hinv : 0 < / ln 10 < 1).
  { split; [apply Rinv_0_lt_compat; lra | ].
    rewrite <- Rinv_1. apply Rinv_lt_contravar; lra. }
  unfold log10, Rdiv. apply Rabs_le. split; nra.
Qed.

Lemma log10_2_lt : log10 2 < 1 / 3.
Proof.
  assert (H : log10 (2 ^ 3) < log10 10) by (apply log10_lt; lra).
  rewrite log10_pow, log10_10 in H by lra. simpl in H. lra.
Qed.

(** From the decimal logarithm back to the number, on the window the
    scaled mean falls in. *)
Lemma log10_window (x : R) :
  0 < x -> 2 / 5 <= log10 x <= 8 / 5 -> 2 <= x <= 50.
Proof.
  intros Hx [Hlo Hhi]. split.
  - destruct (Rle_or_lt 2 x) as [H | H]; [exact H | ].
    apply (log10_lt x 2 Hx) in H. pose proof log10_2_lt. lra.
  - destruct (Rle_or_lt x 50) as [H | H]; [exact H | ].
    assert (H50 : 0 < 50) by lra.
    apply (log10_lt 50 x H50) in H.
    assert (H8 : log10 (powerRZ 10 8) <= log10 (50 ^ 5))
      by (apply log10_le; [apply powerRZ_lt; lra | simpl; lra]).
    rewrite log10_powerRZ, log10_pow in H8 by lra. simpl in H8. lra.
Qed.

Lemma powerRZ10_mono (i j : Z) : (i <= j)%Z -> powerRZ 10 i <= powerRZ 10 j.
Proof.
  intros Hij. apply ln_le_inv; try (apply powerRZ_lt; lra).
  rewrite !ln_powerRZ10. pose proof ln10_pos. apply IZR_le in Hij. nra.
Qed.

(** ** Scale normaliser *)

Lemma sum_scale (xs : list R) (f : R) :
  fold_right Rplus 0 (map (fun p => p * f) xs) = f * fold_right Rplus 0 xs.
Proof. induction xs as [ | x xs IH]; simpl; [ring | rewrite IH; ring]. Qed.

Lemma mean_scale (xs : list R) (f : R) :
  mean (_scale_prices xs f) = f * mean xs.
Proof.
  unfold mean, _scale_prices. rewrite sum_scale, length_map.
  unfold Rdiv. ring.
Qed.

Lemma sum_repeat (c : R) (n : nat) :
  fold_right Rplus 0 (repeat c n) = INR n * c.
Proof.
  induction n as [ | n IH]; [simpl; ring | ].
  rewrite S_INR. simpl repeat. simpl fold_right. rewrite IH. ring.
Qed.

Lemma mean_repeat (c : R) (n : nat) :
  (1 <= n)%nat -> mean (repeat c n) = c.
Proof.
  intros Hn. unfold mean. rewrite sum_repeat, repeat_length.
  field. apply not_0_INR. lia.
Qed.

Lemma mean_singleton (p : R) : mean [p] = p.
Proof. unfold mean. simpl. field. Qed.

(** The mean at which the quotient [10.0 / mean] reaches the overflow
    threshold, in figures. *)
Lemma overflow_mean_figure : 5.56e-308 < 10 / float_overflow < 5.57e-308.
Proof. unfold float_overflow. split; lra. Qed.

Lemma quotient_gt (m b : R) : 0 < m -> m * b < 10 -> b < 10 / m.
Proof.
  intros Hm H. apply (Rmult_lt_reg_r m); [exact Hm | ].
  replace (10 / m * m) with 10 by (field; lra). lra.
Qed.

Lemma quotient_ge (m b : R) : 0 < m -> m * b <= 10 -> b <= 10 / m.
Proof.
  intros Hm H. apply (Rmult_le_reg_r m); [exact Hm | ].
  replace (10 / m * m) with 10 by (field; lra). lra.
Qed.

Lemma quotient_le (m b : R) : 0 < m -> 10 <= m * b -> 10 / m <= b.
Proof.
  intros Hm H. apply (Rmult_le_reg_r m); [exact Hm | ].
  replace (10 / m * m) with 10 by (field; lra). lra.
Qed.

Lemma quotient_lt_inv (m b : R) : 0 < m -> 10 / m < b -> 10 < m * b.
Proof.
  intros Hm H. apply (Rmult_lt_compat_r m) in H; [ | exact Hm].
  replace (10 / m * m) with 10 in H by (field; lra). lra.
Qed.

Lemma quotient_gt_inv (m b : R) : 0 < m -> b < 10 / m -> m * b < 10.
Proof.
  intros Hm H. apply (Rmult_lt_compat_r m) in H; [ | exact Hm].
  replace (10 / m * m) with 10 in H by (field; lra). lra.
Qed.

Lemma quotient_ge_inv (m b : R) : 0 < m -> b <= 10 / m -> m * b <= 10.
Proof.
  intros Hm H. apply (Rmult_le_compat_r m) in H; [ | lra].
  replace (10 / m * m) with 10 in H by (field; lra). lra.
Qed.

(** A mean at which the quotient overflows is far below 0.01. *)
Lemma overflow_mean_small (m : R) :
  0 < m -> float_overflow <= 10 / m -> m < 0.01.
Proof.
  intros Hm H. apply quotient_ge_inv in H; [ | exact Hm].
  unfold float_overflow in H. nra.
Qed.

Lemma repeat_Forall {A : Type} (P : A -> Prop) (x : A) (n : nat) :
  P x -> Forall P (repeat x n).
Proof. intros Hx. induction n; simpl; constructor; assumption. Qed.

(** On a non-empty list the fallback returns, with [days] values (none when
    [days <= 0]). *)
Section ScaleProperties.
Context {N : Numerics}.

(** [np.mean] of a constant series of positive floats. *)
Lemma np_mean_repeat_near (c : R) (n : nat) :
  1e-300 <= c <= 1e300 -> (1 <= n)%nat -> (Z.of_nat n <= 1000000)%Z ->
  c * (1 - 1e-9) <= np_mean (repeat c n) <= c * (1 + 1e-9).
Proof.
  intros Hc Hn Hmax.
  assert (Hne : repeat c n <> []) by (destruct n; [lia | discriminate]).
  pose proof (np_mean_accurate (repeat c n) Hne) as Hacc.
  rewrite repeat_length, mean_repeat in Hacc by exact Hn.
  specialize (Hacc Hmax (repeat_Forall _ c n Hc)).
  apply Rabs_bounds in Hacc. lra.
Qed.

(** What [_calculate_scale_factor] computes on each side of its guards. *)
Lemma scale_factor_empty : _calculate_scale_factor [] = Ok 1.
Proof. unfold _calculate_scale_factor. f_equal. lra. Qed.

Lemma scale_factor_high (prices : list R) :
  0.01 <= np_mean prices -> _calculate_scale_factor prices = Ok 1.
Proof.
  intros Hm. destruct prices as [ | p ps]; [apply scale_factor_empty | ].
  unfold _calculate_scale_factor.
  destruct (Rle_dec 0.01 (np_mean (p :: ps))); [f_equal; lra | contradiction].
Qed.

Lemma round_log10_one : py_round (fl_log10 1) = 0%Z.
Proof.
  pose proof (fl_log10_accurate 1 ltac:(lra)) as H.
  rewrite log10_1 in H. apply Rabs_bounds in H.
  apply py_round_unique. simpl. lra.
Qed.

Lemma scale_factor_nonpos (prices : list R) :
  np_mean prices <= 0 -> _calculate_scale_factor prices = Ok 1.
Proof.
  intros Hm. destruct prices as [ | p ps]; [apply scale_factor_empty | ].
  unfold _calculate_scale_factor.
  destruct (Rle_dec 0.01 (np_mean (p :: ps))); [lra | ].
  destruct (Rlt_dec 0 (np_mean (p :: ps))); [lra | ].
  replace 1.0 with 1 by lra. cbn [np_log10 round_float mbind result_bind].
  rewrite round_log10_one. reflexivity.
Qed.

Lemma scale_factor_overflow (prices : list R) :
  prices <> [] -> 0 < np_mean prices ->
  float_overflow <= 10 / np_mean prices ->
  _calculate_scale_factor prices = Raise OverflowError.
Proof.
  intros Hne Hpos Hov. pose proof (overflow_mean_small _ Hpos Hov) as Hlt.
  destruct prices as [ | p ps]; [contradiction | ].
  unfold _calculate_scale_factor.
  destruct (Rle_dec 0.01 (np_mean (p :: ps))); [lra | ].
  destruct (Rlt_dec 0 (np_mean (p :: ps))); [ | contradiction].
  unfold float_div. replace 10.0 with 10 by lra.
  destruct (Rle_dec float_overflow (10 / np_mean (p :: ps))); [reflexivity | contradiction].
Qed.

Lemma scale_factor_low (prices : list R) :
  prices <> [] -> 0 < np_mean prices < 0.01 ->
  10 / np_mean prices < float_overflow ->
  _calculate_scale_factor prices =
  Ok (powerRZ 10 (py_round (fl_log10 (fl_div 10 (np_mean prices))))).
Proof.
  intros Hne [Hpos Hlt] Hov. destruct prices as [ | p ps]; [contradiction | ].
  unfold _calculate_scale_factor.
  destruct (Rle_dec 0.01 (np_mean (p :: ps))); [lra | ].
  destruct (Rlt_dec 0 (np_mean (p :: ps))); [ | contradiction].
  unfold float_div. replace 10.0 with 10 by lra.
  destruct (Rle_dec float_overflow (10 / np_mean (p :: ps))); [lra | reflexivity].
Qed.

(** The exponent computed for a mean [m] is within a half, and the
    rounding of the quotient and of its logarithm, of [log10 (10 / m)]. *)
Lemma scale_exponent_near (m : R) :
  0 < m < 0.01 -> 10 / m < float_overflow ->
  Rabs (IZR (py_round (fl_log10 (fl_div 10 m))) - log10 (10 / m))
  <= 1 / 2 + 2e-9.
Proof.
  intros [Hm Hlt] Hov.
  assert (Hq : 1000 < 10 / m) by (apply quotient_gt; lra).
  assert (Hr : rounds_to (10 / m) (fl_div 10 m))
    by (apply fl_div_rounds; [exact Hm | lra]).
  assert (Hq0 : 0 < 10 / m) by lra.
  destruct (log10_rounded _ _ Hq0 Hr) as [_ Hls].
  assert (Hs1 : 1 <= fl_div 10 m).
  { destruct Hr as (d & Hd & ->). apply Rabs_bounds in Hd.
    unfold unit_roundoff in Hd. remember (10 / m) as q. nra. }
  pose proof (fl_log10_accurate _ Hs1) as Hl.
  pose proof (py_round_near (fl_log10 (fl_div 10 m))) as Hk.
  apply Rabs_bounds in Hls, Hl. apply Rabs_le. lra.
Qed.

(** The exponent is [k] for a quotient between [a] and [b] when
    [10 ** (k - 2/5) <= a] and [b <= 10 ** (k + 2/5)], both written on fifth
    powers. *)
Lemma scale_exponent_unique (m a b : R) (k : Z) :
  0 < m < 0.01 -> 10 / m < float_overflow ->
  0 < a -> a <= 10 / m <= b ->
  powerRZ 10 (5 * k - 2) <= a ^ 5 -> b ^ 5 <= powerRZ 10 (5 * k + 2) ->
  py_round (fl_log10 (fl_div 10 m)) = k.
Proof.
  intros Hm Hov Ha [Hlo Hhi] Hpa Hpb.
  pose proof (scale_exponent_near m Hm Hov) as Hnear.
  apply Rabs_bounds in Hnear.
  assert (Hq : 0 < 10 / m) by lra.
  assert (Hla : IZR (5 * k - 2) <= 5 * log10 (10 / m)).
  { rewrite <- (log10_powerRZ (5 * k - 2)).
    replace (5 * log10 (10 / m)) with (INR 5 * log10 (10 / m)) by (simpl; ring).
    rewrite <- log10_pow by exact Hq.
    apply log10_le; [apply powerRZ_lt; lra | ].
    apply Rle_trans with (a ^ 5); [exact Hpa | apply pow_incr; lra]. }
  assert (Hlb : 5 * log10 (10 / m) <= IZR (5 * k + 2)).
  { rewrite <- (log10_powerRZ (5 * k + 2)).
    replace (5 * log10 (10 / m)) with (INR 5 * log10 (10 / m)) by (simpl; ring).
    rewrite <- log10_pow by exact Hq.
    apply log10_le; [apply pow_lt; exact Hq | ].
    apply Rle_trans with (b ^ 5); [apply pow_incr; lra | exact Hpb]. }
  rewrite minus_IZR, mult_IZR in Hla. rewrite plus_IZR, mult_IZR in Hlb.
  assert (Hkk : py_round (fl_log10 (fl_div 10 m)) = k); [ | exact Hkk].
  remember (py_round (fl_log10 (fl_div 10 m))) as k' eqn:Ek'.
  assert (H1 : (k' < k + 1)%Z) by (apply lt_IZR; rewrite plus_IZR; lra).
  assert (H2 : (k < k' + 1)%Z) by (apply lt_IZR; rewrite plus_IZR; lra).
  lia.
Qed.

Lemma scale_factor_in_window (prices : list R) (a b : R) (k : Z) :
  prices <> [] -> 0 < np_mean prices ->
  1000 < a -> a <= 10 / np_mean prices <= b -> b < float_overflow ->
  powerRZ 10 (5 * k - 2) <= a ^ 5 -> b ^ 5 <= powerRZ 10 (5 * k + 2) ->
  _calculate_scale_factor prices = Ok (powerRZ 10 k).
Proof.
  intros Hne Hpos Ha [Hlo Hhi] Hb Hpa Hpb.
  assert (Hlt : np_mean prices < 0.01).
  { assert (H : 1000 < 10 / np_mean prices) by lra.
    apply quotient_gt_inv in H; [lra | exact Hpos]. }
  assert (Hov : 10 / np_mean prices < float_overflow) by lra.
  rewrite scale_factor_low by (try split; assumption).
  rewrite (scale_exponent_unique _ a b k);
    [reflexivity | split; assumption | exact Hov | lra | split; assumption
     | exact Hpa | exact Hpb].
Qed.

Lemma scale_factor_returns (prices : list R) :
  np_mean prices <= 0 \/ 10 / np_mean prices < float_overflow ->
  exists f, _calculate_scale_factor prices = Ok f.
Proof.
  intros H. destruct prices as [ | p ps]; [eexists; reflexivity | ].
  destruct (Rle_dec 0.01 (np_mean (p :: ps))) as [Hhigh | Hlow];
    [exists 1; apply scale_factor_high; exact Hhigh | ].
  destruct (Rlt_dec 0 (np_mean (p :: ps))) as [Hpos | Hnp];
    [ | exists 1; apply scale_factor_nonpos; lra].
  destruct H as [H | H]; [lra | ].
  eexists. apply scale_factor_low; [discriminate | lra | exact H].
Qed.

(** The normaliser raises nothing but [OverflowError], and only where the
    quotient overflows. *)
Lemma scale_factor_Raise (prices : list R) (e : exn) :
  _calculate_scale_factor prices = Raise e ->
  e = OverflowError /\ prices <> [] /\
  0 < np_mean prices /\ float_overflow <= 10 / np_mean prices.
Proof.
  intros H.
  destruct (Rle_dec (np_mean prices) 0) as [Hnp | Hpos].
  { destruct (scale_factor_returns prices (or_introl Hnp)) as [f Hf].
    rewrite Hf in H. discriminate. }
  destruct (Rlt_dec (10 / np_mean prices) float_overflow) as [Hfin | Hov].
  { destruct (scale_factor_returns prices (or_intror Hfin)) as [f Hf].
    rewrite Hf in H. discriminate. }
  assert (Hne : prices <> [])
    by (intros ->; rewrite scale_factor_empty in H; discriminate).
  rewrite scale_factor_overflow in H by (assumption || lra).
  inversion H. repeat split; try assumption; lra.
Qed.

(** A factor the normaliser returns is a power of ten, so positive. *)
Lemma scale_factor_Ok_pos (prices : list R) (f : R) :
  _calculate_scale_factor prices = Ok f -> 0 < f.
Proof.
  unfold _calculate_scale_factor. destruct prices as [ | p ps].
  { intros H. inversion H. lra. }
  destruct (Rle_dec 0.01 (np_mean (p :: ps))).
  { intros H. inversion H. lra. }
  destruct (round_float _) as [k | e]; cbn [mbind result_bind]; intros H;
    [ | discriminate].
  inversion H. apply powerRZ_lt. lra.
Qed.

(** Concrete series used below. *)
Lemma scale_factor_half_cent : _calculate_scale_factor [0.005] = Ok 1000.
Proof.
  pose proof (np_mean_repeat_near 0.005 1 ltac:(lra) ltac:(lia) ltac:(lia)) as Hm.
  cbn [repeat] in Hm.
  replace 1000 with (powerRZ 10 3) by (simpl; lra).
  apply (scale_factor_in_window _ 1999 2001);
    [discriminate | lra | lra | | unfold float_overflow; lra | simpl; lra | simpl; lra].
  split; [apply quotient_ge | apply quotient_le]; lra.
Qed.

Lemma scale_factor_shib (n : nat) :
  (1 <= n)%nat -> (Z.of_nat n <= 1000000)%Z ->
  _calculate_scale_factor (repeat 0.000018 n) = Ok 1000000.
Proof.
  intros Hn Hmax.
  pose proof (np_mean_repeat_near 0.000018 n ltac:(lra) Hn Hmax) as Hm.
  replace 1000000 with (powerRZ 10 6) by (simpl; lra).
  apply (scale_factor_in_window _ 500000 600000);
    [destruct n; [lia | discriminate] | lra | lra |
     | unfold float_overflow; lra | simpl; lra | simpl; lra].
  split; [apply quotient_ge | apply quotient_le]; lra.
Qed.

(** A series that sits on the guard: the mean of floats equal to 0.01 can
    come out one rounding below 0.01, and the factor is then 1000 and not
    1. *)
Lemma scale_factor_on_the_guard (n : nat) :
  (1 <= n)%nat -> (Z.of_nat n <= 1000000)%Z ->
  _calculate_scale_factor (repeat 0.01 n) = Ok 1 \/
  _calculate_scale_factor (repeat 0.01 n) = Ok 1000.
Proof.
  intros Hn Hmax.
  pose proof (np_mean_repeat_near 0.01 n ltac:(lra) Hn Hmax) as Hm.
  destruct (Rle_dec 0.01 (np_mean (repeat 0.01 n))) as [Hhigh | Hlow];
    [left; apply scale_factor_high; exact Hhigh | right].
  replace 1000 with (powerRZ 10 3) by (simpl; lra).
  assert (Hq : 1000 < 10 / np_mean (repeat 0.01 n))
    by (apply quotient_gt; lra).
  apply (scale_factor_in_window _ (10 / np_mean (repeat 0.01 n)) 1001);
    [destruct n; [lia | discriminate] | lra | lra |
     | unfold float_overflow; lra | | simpl; lra].
  - split; [lra | apply quotient_le; lra].
  - apply Rle_trans with (1000 ^ 5); [simpl; lra | apply pow_incr; lra].
Qed.

(** C6, as the code has it.  On the mean [np.mean] returns,
    [_calculate_scale_factor] returns 1 on the empty list, 1 when the mean is
    at least 0.01 and 1 when the mean is zero or negative.  For a non-empty
    list whose mean lies strictly between 0 and 0.01 it raises
    [OverflowError] when the quotient [10.0 / mean] overflows, and otherwise
    returns [10 ** k] for the integer [k] that [round] makes of the computed
    logarithm of the computed quotient: the nearest integer, the even one
    on a tie, and within [1/2 + 2e-9] of [log10 (10 / mean)]. *)
Theorem calculate_scale_factor_cases :
  _calculate_scale_factor [] = Ok 1 /\
  (forall prices, 0.01 <= np_mean prices ->
     _calculate_scale_factor prices = Ok 1) /\
  (forall prices, np_mean prices <= 0 ->
     _calculate_scale_factor prices = Ok 1) /\
  (forall prices, prices <> [] -> 0 < np_mean prices < 0.01 ->
     10 / np_mean prices < float_overflow ->
     exists k : Z,
       _calculate_scale_factor prices = Ok (powerRZ 10 k) /\
       nearest_integer (fl_log10 (fl_div 10 (np_mean prices))) k /\
       Rabs (IZR k - log10 (10 / np_mean prices)) <= 1 / 2 + 2e-9) /\
  (forall prices, prices <> [] -> 0 < np_mean prices ->
     float_overflow <= 10 / np_mean prices ->
     _calculate_scale_factor prices = Raise OverflowError).
Proof.
  split; [apply scale_factor_empty | ].
  split; [apply scale_factor_high | ].
  split; [apply scale_factor_nonpos | ].
  split; [ | apply scale_factor_overflow].
  intros prices Hne Hm Hov.
  exists (py_round (fl_log10 (fl_div 10 (np_mean prices)))).
  split; [apply scale_factor_low; assumption | ].
  split; [apply py_round_nearest | apply scale_exponent_near; assumption].
Qed.

(** A factor the normaliser returns is positive, so the round trip of C7
    holds for it. *)
Lemma descale_scale_computed_factor (prices x : list R) (f : R) :
  _calculate_scale_factor prices = Ok f ->
  _descale_prices (_scale_prices x f) f = x.
Proof.
  intros Hf. apply scale_factor_Ok_pos in Hf.
  unfold _descale_prices, _scale_prices.
  induction x as [ | p ps IH]; [reflexivity | ].
  simpl. rewrite IH. f_equal. field. lra.
Qed.

(** C5, as the code has it.  For a non-empty series whose mean, as
    [np.mean] returns it, lies strictly between 0 and 0.01 and is large
    enough for the quotient [10.0 / mean] not to overflow, the factor is a
    power of ten [10 ** k] with [3 <= k], so at least 1000, and the factor
    times the mean lies in [1, 100); so does the exact mean of the scaled
    series when the series holds at most a million prices between [1e-300]
    and [1e300].  For a series of one to a million values 0.000018 the
    factor is 1000000. *)
Theorem scale_factor_low_value :
  (forall prices, prices <> [] -> 0 < np_mean prices < 0.01 ->
     10 / np_mean prices < float_overflow ->
     exists k : Z,
       (3 <= k)%Z /\
       _calculate_scale_factor prices = Ok (powerRZ 10 k) /\
       1000 <= powerRZ 10 k /\
       1 <= powerRZ 10 k * np_mean prices < 100 /\
       ((Z.of_nat (length prices) <= 1000000)%Z ->
        Forall (fun x => 1e-300 <= x <= 1e300) prices ->
        1 <= mean (_scale_prices prices (powerRZ 10 k)) < 100)) /\
  (forall n, (1 <= n)%nat -> (Z.of_nat n <= 1000000)%Z ->
     exists f,
       _calculate_scale_factor (repeat 0.000018 n) = Ok f /\
       f = 1000000 /\ 100000 <= f).
Proof.
  split.
  - intros prices Hne [Hpos Hlt] Hov.
    pose proof (scale_exponent_near _ (conj Hpos Hlt) Hov) as Hnear.
    apply Rabs_bounds in Hnear.
    remember (py_round (fl_log10 (fl_div 10 (np_mean prices)))) as k eqn:Ek.
    remember (np_mean prices) as m eqn:Em.
    assert (Hq : 1000 < 10 / m) by (apply quotient_gt; lra).
    assert (Hlq : 3 < log10 (10 / m)).
    { replace 3 with (log10 (powerRZ 10 3)) by apply log10_powerRZ.
      apply log10_lt; [apply powerRZ_lt; lra | simpl; lra]. }
    assert (Hk : (3 <= k)%Z).
    { assert (H : (2 < k)%Z) by (apply lt_IZR; lra). lia. }
    assert (Hf : 0 < powerRZ 10 k) by (apply powerRZ_lt; lra).
    assert (Hlm : log10 m = 1 - log10 (10 / m)).
    { assert (H10 : log10 (10 / m * m) = log10 (10 / m) + log10 m)
        by (apply log10_mult; lra).
      replace (10 / m * m) with 10 in H10 by (field; lra).
      rewrite log10_10 in H10. lra. }
    assert (Hwin : 2 <= powerRZ 10 k * m <= 50).
    { apply log10_window; [apply Rmult_lt_0_compat; assumption | ].
      rewrite log10_mult, log10_powerRZ, Hlm by assumption. lra. }
    exists k. split; [exact Hk | ].
    split; [subst m k; apply scale_factor_low; try split; assumption | ].
    split.
    { replace 1000 with (powerRZ 10 3) by (simpl; lra).
      apply powerRZ10_mono. exact Hk. }
    split; [lra | ].
    intros Hlen Hall. rewrite mean_scale.
    pose proof (np_mean_accurate prices Hne Hlen Hall) as Hacc.
    rewrite <- Em in Hacc. apply Rabs_bounds in Hacc.
    remember (powerRZ 10 k) as f eqn:Ef. remember (mean prices) as mu eqn:Emu.
    assert (Hmu : 0 < mu) by lra.
    assert (H1 : f * m <= f * ((1 + 1e-9) * mu))
      by (apply Rmult_le_compat_l; lra).
    assert (H2 : f * ((1 - 1e-9) * mu) <= f * m)
      by (apply Rmult_le_compat_l; lra).
    assert (Hfmu : 0 < f * mu) by (apply Rmult_lt_0_compat; assumption).
    split; nra.
  - intros n Hn Hmax. exists 1000000.
    split; [apply scale_factor_shib; assumption | ]. split; [reflexivity | lra].
Qed.

End ScaleProperties.

(** The fourth case of C6 at the one-element series [0.005], in exact
    arithmetic. *)
Lemma calculate_scale_factor_cases_witness :
  exists k : Z,
    _calculate_scale_factor (N := exact_numerics) [0.005] = Ok (powerRZ 10 k) /\
    nearest_integer
      (fl_log10 (Numerics := exact_numerics)
         (fl_div (Numerics := exact_numerics) 10
            (np_mean (Numerics := exact_numerics) [0.005]))) k /\
    Rabs (IZR k - log10 (10 / np_mean (Numerics := exact_numerics) [0.005]))
    <= 1 / 2 + 2e-9.
Proof.
  assert (Hm : np_mean (Numerics := exact_numerics) [0.005] = 0.005)
    by apply mean_singleton.
  apply (proj1 (proj2 (proj2 (proj2
           (calculate_scale_factor_cases (N := exact_numerics)))))).
  - discriminate.
  - rewrite Hm. lra.
  - rewrite Hm. unfold float_overflow. lra.
Defined.

(** C6, at an input where the claim fails: the one-element series
    [1e-320] has a positive mean below 0.01, the quotient [10.0 / 1e-320]
    is beyond the largest float, and the call raises instead of returning a
    power of ten. *)
Lemma scale_factor_tiny_mean_raises :
  0 < np_mean (Numerics := exact_numerics) [1e-320] < 0.01 /\
  _calculate_scale_factor (N := exact_numerics) [1e-320] = Raise OverflowError.
Proof.
  assert (Hm : np_mean (Numerics := exact_numerics) [1e-320] = 1e-320)
    by apply mean_singleton.
  split; [rewrite Hm; lra | ].
  apply scale_factor_overflow; [discriminate | rewrite Hm; lra | ].
  rewrite Hm. unfold float_overflow. lra.
Qed.

(** C7.  Scaling by a positive factor and descaling by the same factor gives
    back the list, element by element. *)
Theorem descale_scale_roundtrip (x : list R) (f : R) :
  0 < f -> _descale_prices (_scale_prices x f) f = x.
Proof.
  intros Hf. unfold _descale_prices, _scale_prices.
  induction x as [ | p ps IH]; [reflexivity | ].
  simpl. rewrite IH. f_equal. field. lra.
Qed.

Lemma descale_scale_roundtrip_witness :
  _descale_prices (_scale_prices [0.000018; 0.00002] 1000000) 1000000 =
  [0.000018; 0.00002].
Proof. apply descale_scale_roundtrip. lra. Defined.

(** C5, at an input where the stated bound fails: a one-element series of
    mean 0.005 is below 0.01 and gets the factor 1000, which is less than
    100000. *)
Lemma scale_factor_below_100000 :
  0 < np_mean (Numerics := exact_numerics) [0.005] < 0.01 /\
  _calculate_scale_factor (N := exact_numerics) [0.005] = Ok 1000 /\
  1000 < 100000.
Proof.
  assert (Hm : np_mean (Numerics := exact_numerics) [0.005] = 0.005)
    by apply mean_singleton.
  split; [rewrite Hm; lra | ]. split; [apply scale_factor_half_cent | lra].
Qed.

Lemma scale_factor_low_value_witness :
  (exists k : Z,
     (3 <= k)%Z /\
     _calculate_scale_factor (N := exact_numerics) [0.005] = Ok (powerRZ 10 k) /\
     1000 <= powerRZ 10 k /\
     1 <= powerRZ 10 k * np_mean (Numerics := exact_numerics) [0.005] < 100 /\
     ((Z.of_nat (length [0.005%R]) <= 1000000)%Z ->
      Forall (fun x => 1e-300 <= x <= 1e300) [0.005] ->
      1 <= mean (_scale_prices [0.005] (powerRZ 10 k)) < 100)) /\
  (exists f,
     _calculate_scale_factor (N := exact_numerics) (repeat 0.000018 30)
     = Ok f /\
     f = 1000000 /\ 100000 <= f).
Proof.
  assert (Hm : np_mean (Numerics := exact_numerics) [0.005] = 0.005)
    by apply mean_singleton.
  split.
  - apply (proj1 (scale_factor_low_value (N := exact_numerics))).
    + discriminate.
    + rewrite Hm. lra.
    + rewrite Hm. unfold float_overflow. lra.
  - apply (proj2 (scale_factor_low_value (N := exact_numerics))); lia.
Defined.

(** ** Trend fallback *)

Lemma py_last_Some (xs : list R) (p : R) : last xs = Some p -> py_last xs = Ok p.
Proof. intros H. unfold py_last. rewrite H. reflexivity. Qed.

Lemma last_of_nonempty (xs : list R) : xs <> [] -> exists p, last xs = Some p.
Proof.
  intros Hne. destruct (last xs) as [p | ] eqn:E; [exists p; reflexivity | ].
  apply last_None in E. contradiction.
Qed.

Lemma fallback_loop_length (slope cp : R) (n i : nat) (lastp : R) :
  length (fallback_loop slope cp i n lastp) = n.
Proof.
  revert i lastp. induction n as [ | n IH]; intros i lastp; simpl;
    [reflexivity | rewrite IH; reflexivity].
Qed.





Lemma simple_fallback_returns (prices : list R) (days : Z) (p : R) :
  last prices = Some p ->
  exists out, _simple_fallback prices days = Ok out /\
              length out = Z.to_nat days /\
              (out = py_repeat p days \/
               out = fallback_loop (fallback_slope prices) p 0 (Z.to_nat days) p).
Proof.
  intros Hl. unfold _simple_fallback. rewrite (py_last_Some _ _ Hl).
  destruct (length prices <? 2)%nat; simpl.
  - exists (py_repeat p days). split; [reflexivity | ].
    split; [apply repeat_length | left; reflexivity].
  - eexists. split; [reflexivity | ].
    split; [apply fallback_loop_length | right; reflexivity].
Qed.

(** C8, at the empty list: [prices[-1]] raises. *)
Lemma simple_fallback_empty_raises :
  (length ([] : list R) < 2)%nat /\ _simple_fallback [] 5 = Raise IndexError.
Proof. split; [simpl; lia | reflexivity]. Qed.

(** C8, as the code has it.  On every non-empty list the fallback returns a
    forecast; on a non-empty list with fewer than two elements that forecast
    is the last price repeated [days] times; on [[100.0]] with [days = 5] it
    is five times 100.0. *)
Theorem simple_fallback_short :
  (forall prices days, prices <> [] ->
     exists out, _simple_fallback prices days = Ok out) /\
  (forall prices days, prices <> [] -> (length prices < 2)%nat ->
     exists p, last prices = Some p /\
               _simple_fallback prices days = Ok (py_repeat p days)) /\
  _simple_fallback [100.0] 5 = Ok [100.0; 100.0; 100.0; 100.0; 100.0].
Proof.
  split; [ | split].
  - intros prices days Hne. destruct (last_of_nonempty _ Hne) as [p Hp].
    destruct (simple_fallback_returns prices days p Hp) as (out & Hout & _).
    exists out. exact Hout.
  - intros prices days Hne Hlen. destruct (last_of_nonempty _ Hne) as [p Hp].
    exists p. split; [exact Hp | ].
    unfold _simple_fallback. rewrite (py_last_Some _ _ Hp).
    apply Nat.ltb_lt in Hlen. rewrite Hlen. reflexivity.
  - reflexivity.
Qed.

Lemma simple_fallback_short_witness :
  (exists out, _simple_fallback [100.0; 102.0] 3 = Ok out) /\
  (exists p, last [100.0] = Some p /\
             _simple_fallback [100.0] 5 = Ok (py_repeat p 5)).
Proof.
  split.
  - apply (proj1 simple_fallback_short). discriminate.
  - apply (proj1 (proj2 simple_fallback_short)); [discriminate | simpl; lia].
Defined.



(** With two points the weighted fit is the line through them, so the
    dampened slope is 0.6 times their difference. *)
Lemma fallback_slope_two (a b : R) : fallback_slope [a; b] = (b - a) * 0.6.
Proof.
  unfold fallback_slope, py_suffix, np_arange, np_linspace01, np_polyfit1, dot.
  simpl.
  pose proof (exp_pos (0 / 1)) as H0. pose proof (exp_pos (1 / 1)) as H1.
  set (w0 := exp (0 / 1)) in *. set (w1 := exp (1 / 1)) in *.
  clearbody w0 w1. field.
  replace ((w0 * w0 + w1 * w1) * (w1 * w1) - w1 * w1 * (w1 * w1))
    with (w0 * w1 * (w0 * w1)) by ring.
  assert (Hw : 0 < w0 * w1) by (apply Rmult_lt_0_compat; assumption).
  nra.
Qed.

(** C3, at the trend fallback: on [[100.0; 102.0]] with [days = 1] the
    forecast is [[103.2]], whose first element is not the last price 102.0. *)
Lemma simple_fallback_not_anchored :
  last [100.0; 102.0] = Some 102.0 /\
  _simple_fallback [100.0; 102.0] 1 = Ok [103.2] /\
  head [103.2] <> Some 102.0.
Proof.
  split; [reflexivity | ]. split.
  - unfold _simple_fallback. simpl. rewrite fallback_slope_two. simpl.
    unfold py_last. simpl. do 2 f_equal.
    unfold Rmin, Rmax. repeat destruct (Rle_dec _ _); lra.
  - simpl. intros H. inversion H. lra.
Qed.

(** ** Model tiers *)

Lemma bind_Ok_inv {A B : Type} (m : result A) (f : A -> result B) (b : B) :
  (m ≫= f) = Ok b -> exists a, m = Ok a /\ f a = Ok b.
Proof.
  destruct m as [a | e]; simpl; intros H; [exists a; split; [reflexivity | exact H] | discriminate].
Qed.

Ltac bind_inv H :=
  let a := fresh "a" in
  let Ha := fresh "Ha" in
  apply bind_Ok_inv in H; destruct H as (a & Ha & H).

Lemma py_last_Ok (xs : list R) (p : R) : py_last xs = Ok p -> last xs = Some p.
Proof. unfold py_last. destruct (last xs); intros H; inversion H; reflexivity. Qed.

Lemma py_first_Ok (xs : list R) (p : R) : py_first xs = Ok p -> head xs = Some p.
Proof. unfold py_first. destruct (head xs); intros H; inversion H; reflexivity. Qed.

Lemma py_first_cons (xs : list R) :
  xs <> [] -> exists p, py_first xs = Ok p.
Proof. destruct xs as [ | x xs]; [contradiction | exists x; reflexivity]. Qed.

Lemma descale_length (forecast : list R) (f : R) :
  length (_descale_prices forecast f) = length forecast.
Proof. apply length_map. Qed.

Section TierProperties.
Context {L : Libs}.

(** Anchoring keeps the length and puts the last price first. *)
Lemma anchor_Ok (prices predictions out : list R) :
  anchor prices predictions = Ok out ->
  exists p, last prices = Some p /\ head out = Some p /\
            length out = length predictions.
Proof.
  unfold anchor. intros H. bind_inv H. bind_inv H.
  apply py_last_Ok in Ha. apply py_first_Ok in Ha0.
  inversion H; subst out; clear H.
  exists a. split; [exact Ha | ]. split; [ | apply length_map].
  destruct predictions as [ | q qs]; [discriminate | ].
  simpl in Ha0. inversion Ha0; subst. simpl. f_equal. ring.
Qed.

Lemma anchor_returns (prices predictions : list R) :
  prices <> [] -> predictions <> [] ->
  exists out, anchor prices predictions = Ok out.
Proof.
  intros Hp Hq. destruct (last_of_nonempty _ Hp) as [p Hl].
  destruct (py_first_cons _ Hq) as [q Hf].
  unfold anchor. rewrite (py_last_Some _ _ Hl), Hf. simpl. eexists. reflexivity.
Qed.

Lemma xgb_iterate_length (model : XGBModel) (n : nat)
    (current_prices predictions out : list R) :
  xgb_iterate model n current_prices predictions = Ok out ->
  length out = (length predictions + n)%nat.
Proof.
  revert current_prices predictions.
  induction n as [ | n IH]; intros cp preds H; simpl in H.
  - inversion H. lia.
  - bind_inv H. destruct a as [row | ].
    + bind_inv H. apply IH in H. rewrite length_app in H. simpl in H. lia.
    + bind_inv H. apply IH in H. rewrite length_app in H. simpl in H. lia.
Qed.

Lemma lstm_iterate_length (model : LSTMModel) (n : nat)
    (current_sequence predictions out : list R) :
  lstm_iterate model n current_sequence predictions = Ok out ->
  length out = (length predictions + n)%nat.
Proof.
  revert current_sequence predictions.
  induction n as [ | n IH]; intros cs preds H; simpl in H.
  - inversion H. lia.
  - bind_inv H. apply IH in H. rewrite length_app in H. simpl in H. lia.
Qed.

Lemma ensemble_loop_length (pl : list (list R)) (ws : list R) (n day : nat)
    (out : list R) :
  ensemble_loop pl ws day n = Ok out -> length out = n.
Proof.
  revert day out. induction n as [ | n IH]; intros day out H; simpl in H.
  - inversion H. reflexivity.
  - bind_inv H. bind_inv H. inversion H; subst. simpl. f_equal. eapply IH. eassumption.
Qed.

(** Each tier that returns, returns [days] values whose first is the last
    price of its input. *)
Lemma xgboost_forecast_Ok (prices : list R) (days : Z) (out : list R) :
  _xgboost_forecast prices days = Ok out ->
  exists p, last prices = Some p /\ head out = Some p /\
            length out = Z.to_nat days.
Proof.
  unfold _xgboost_forecast. intros H. bind_inv H. bind_inv H.
  apply xgb_iterate_length in Ha0. simpl in Ha0.
  destruct (anchor_Ok _ _ _ H) as (p & Hl & Hh & Hlen).
  exists p. split; [exact Hl | ]. split; [exact Hh | lia].
Qed.

Lemma prophet_forecast_Ok (prices : list R) (days : Z) (out : list R) :
  _prophet_forecast prices days = Ok out ->
  exists p, last prices = Some p /\ head out = Some p.
Proof.
  unfold _prophet_forecast. intros H. bind_inv H.
  destruct (anchor_Ok _ _ _ H) as (p & Hl & Hh & _).
  exists p. split; assumption.
Qed.

Lemma lstm_forecast_Ok (prices : list R) (days : Z) (lookback : nat)
    (out : list R) :
  _lstm_forecast prices days lookback = Ok out ->
  exists p, last prices = Some p /\ head out = Some p /\
            length out = Z.to_nat days.
Proof.
  unfold _lstm_forecast. intros H. bind_inv H. bind_inv H. bind_inv H.
  apply lstm_iterate_length in Ha1. simpl in Ha1.
  destruct (anchor_Ok _ _ _ H) as (p & Hl & Hh & Hlen).
  rewrite length_map in Hlen.
  exists p. split; [exact Hl | ]. split; [exact Hh | lia].
Qed.

Lemma ensemble_forecast_Ok (prices : list R) (days : Z) (out : list R) :
  _ensemble_forecast prices days = Ok out ->
  exists p, last prices = Some p /\
            ((1 <= days)%Z -> head out = Some p) /\
            length out = Z.to_nat days.
Proof.
  unfold _ensemble_forecast.
  set (acc := try_member _ _ (try_member _ _ (try_member _ _ _))).
  destruct (fst acc) as [ | m ms] eqn:Epl; intros H.
  - bind_inv H. apply py_last_Ok in Ha. inversion H; subst out; clear H.
    exists a. split; [exact Ha | ]. unfold py_repeat.
    split; [ | apply repeat_length].
    intros Hd. destruct (Z.to_nat days) as [ | n] eqn:En; [lia | reflexivity].
  - bind_inv H. apply ensemble_loop_length in Ha.
    destruct (anchor_Ok _ _ _ H) as (p & Hl & Hh & Hlen).
    exists p. split; [exact Hl | ]. split; [intros _; exact Hh | lia].
Qed.

End TierProperties.

(** ** Orchestrator *)

Section Orchestrator.
Context {L : Libs} {N : Numerics}.

Lemma descale_if_length (forecast : list R) (f : R) :
  length (descale_if forecast f) = length forecast.
Proof.
  unfold descale_if. destruct (Rlt_dec 1 f); [apply descale_length | reflexivity].
Qed.

Lemma scaled_prices_last (prices : list R) (f : R) :
  prices <> [] ->
  exists p,
    last (if Rlt_dec 1 f then _scale_prices prices f else prices) = Some p.
Proof.
  intros Hne. apply last_of_nonempty.
  destruct (Rlt_dec 1 f); [ | exact Hne].
  destruct prices; [contradiction | discriminate].
Qed.

(** The result of the tier chain on the (scaled) series: the first tier, in
    the order tree-based, ensemble, sequence model, that returns; the trend
    fallback when none does. *)
Lemma tier_chain_returns (scaled_prices : list R) (days : Z) (p : R) :
  last scaled_prices = Some p ->
  exists forecast,
    length forecast = Z.to_nat days /\
    match _xgboost_forecast scaled_prices days with
    | Ok f => forecast = f
    | Raise _ =>
      match _ensemble_forecast scaled_prices days with
      | Ok f => forecast = f
      | Raise _ =>
        match _lstm_forecast scaled_prices days 30 with
        | Ok f => forecast = f
        | Raise _ => _simple_fallback scaled_prices days = Ok forecast
        end
      end
    end.
Proof.
  intros Hl.
  destruct (_xgboost_forecast scaled_prices days) as [f | e1] eqn:E1.
  { exists f. split; [ | reflexivity].
    destruct (xgboost_forecast_Ok _ _ _ E1) as (q & _ & _ & Hlen). exact Hlen. }
  destruct (_ensemble_forecast scaled_prices days) as [f | e2] eqn:E2.
  { exists f. split; [ | reflexivity].
    destruct (ensemble_forecast_Ok _ _ _ E2) as (q & _ & _ & Hlen). exact Hlen. }
  destruct (_lstm_forecast scaled_prices days 30) as [f | e3] eqn:E3.
  { exists f. split; [ | reflexivity].
    destruct (lstm_forecast_Ok _ _ _ _ E3) as (q & _ & _ & Hlen). exact Hlen. }
  destruct (simple_fallback_returns scaled_prices days p Hl) as (f & Hf & Hlen & _).
  exists f. split; [exact Hlen | exact Hf].
Qed.

Lemma generate_forecast_long (prices : list R) (days : Z) (scale_factor : R) :
  prices <> [] -> (30 <= length prices)%nat ->
  _calculate_scale_factor prices = Ok scale_factor ->
  let scaled_prices :=
    if Rlt_dec 1 scale_factor then _scale_prices prices scale_factor
    else prices in
  exists forecast,
    generate_forecast prices days = Ok (descale_if forecast scale_factor) /\
    length forecast = Z.to_nat days /\
    match _xgboost_forecast scaled_prices days with
    | Ok f => forecast = f
    | Raise _ =>
      match _ensemble_forecast scaled_prices days with
      | Ok f => forecast = f
      | Raise _ =>
        match _lstm_forecast scaled_prices days 30 with
        | Ok f => forecast = f
        | Raise _ => _simple_fallback scaled_prices days = Ok forecast
        end
      end
    end.
Proof.
  intros Hne Hlen Hsf sp.
  destruct (scaled_prices_last prices scale_factor Hne) as [p Hp]. fold sp in Hp.
  destruct (tier_chain_returns sp days p Hp) as (forecast & Hl & Hchain).
  exists forecast. split; [ | split; assumption].
  unfold generate_forecast. destruct prices as [ | p0 ps]; [contradiction | ].
  apply Nat.ltb_ge in Hlen. rewrite Hlen, Hsf.
  cbn [mbind result_bind]. fold sp.
  destruct (_xgboost_forecast sp days) as [f | e1]; [subst; reflexivity | ].
  destruct (_ensemble_forecast sp days) as [f | e2]; [subst; reflexivity | ].
  destruct (_lstm_forecast sp days 30) as [f | e3]; [subst; reflexivity | ].
  rewrite Hchain. reflexivity.
Qed.

(** What the normaliser raises escapes: it is called before the first
    [try]. *)
Lemma generate_forecast_normaliser_raises (prices : list R) (days : Z)
    (e : exn) :
  (30 <= length prices)%nat ->
  _calculate_scale_factor prices = Raise e ->
  generate_forecast prices days = Raise e.
Proof.
  intros Hlen Hsf. unfold generate_forecast.
  destruct prices as [ | p0 ps]; [simpl in Hlen; lia | ].
  apply Nat.ltb_ge in Hlen. rewrite Hlen, Hsf. reflexivity.
Qed.

Lemma generate_forecast_short (prices : list R) (days : Z) :
  prices <> [] -> (length prices < 30)%nat ->
  generate_forecast prices days = _simple_fallback prices days.
Proof.
  intros Hne Hlen. unfold generate_forecast.
  destruct prices as [ | p0 ps]; [contradiction | ].
  apply Nat.ltb_lt in Hlen. rewrite Hlen. reflexivity.
Qed.

(** On a non-empty list the orchestrator returns, with [days] values (none
    when [days <= 0]), unless the list has 30 points or more and the
    quotient of the normaliser overflows. *)
Lemma generate_forecast_returns (prices : list R) (days : Z) :
  prices <> [] ->
  (length prices < 30)%nat \/ np_mean prices <= 0 \/
  10 / np_mean prices < float_overflow ->
  exists out, generate_forecast prices days = Ok out /\
              length out = Z.to_nat days.
Proof.
  intros Hne Hcond.
  destruct (Nat.lt_ge_cases (length prices) 30) as [Hs | Hl].
  - rewrite generate_forecast_short by assumption.
    destruct (last_of_nonempty _ Hne) as [p Hp].
    destruct (simple_fallback_returns prices days p Hp) as (out & Hout & Hlen & _).
    exists out. split; assumption.
  - destruct Hcond as [Hs | Hm]; [lia | ].
    destruct (scale_factor_returns prices Hm) as [sf Hsf].
    destruct (generate_forecast_long prices days sf Hne Hl Hsf)
      as (f & Hgf & Hlen & _).
    eexists. split; [exact Hgf | ]. rewrite descale_if_length. exact Hlen.
Qed.

Lemma generate_forecast_overflow (prices : list R) (days : Z) :
  (30 <= length prices)%nat -> 0 < np_mean prices ->
  float_overflow <= 10 / np_mean prices ->
  generate_forecast prices days = Raise OverflowError.
Proof.
  intros Hlen Hpos Hov. apply generate_forecast_normaliser_raises; [exact Hlen | ].
  apply scale_factor_overflow; [ | exact Hpos | exact Hov].
  intros ->. simpl in Hlen. lia.
Qed.

(** C1, as the code has it.  [generate_forecast] returns the empty list on
    the empty list.  On a non-empty list with [days >= 1] it returns exactly
    [days] values, so a list that is not empty, when the list has fewer than
    30 points or the mean [np.mean] returns is not positive or is large
    enough for [10.0 / mean] to be a finite float.  On a list of 30 points or
    more whose mean is positive and so small that [10.0 / mean] overflows it
    returns nothing: it raises [OverflowError]. *)
Theorem generate_forecast_length :
  (forall days, generate_forecast [] days = Ok []) /\
  (forall prices days, prices <> [] -> (1 <= days)%Z ->
     (length prices < 30)%nat \/ np_mean prices <= 0 \/
     10 / np_mean prices < float_overflow ->
     exists out, generate_forecast prices days = Ok out /\
                 Z.of_nat (length out) = days /\ out <> []) /\
  (forall prices days, (30 <= length prices)%nat ->
     0 < np_mean prices -> float_overflow <= 10 / np_mean prices ->
     generate_forecast prices days = Raise OverflowError).
Proof.
  split; [reflexivity | ]. split; [ | apply generate_forecast_overflow].
  intros prices days Hne Hd Hcond.
  destruct (generate_forecast_returns prices days Hne Hcond) as (out & Hout & Hlen).
  exists out. split; [exact Hout | ]. split; [lia | ].
  intros ->. simpl in Hlen. lia.
Qed.

(** C2, as the code has it.  On a non-empty list with [days >= 1] no failure
    of a model library escapes the orchestrator.  Below 30 points its result
    is the trend fallback's.  From 30 points on, when the normaliser returns
    a factor, the result is the descaled forecast of the first tier that
    returns, tried in the order tree-based, ensemble, sequence model, and the
    trend fallback, which returns, when all three raise; the normaliser
    returns whenever the mean is not positive or [10.0 / mean] is a finite
    float.  What does escape is the [OverflowError] of the normaliser, which
    runs before the first [try]: it is raised when [10.0 / mean] overflows,
    whatever the model libraries do. *)
Theorem generate_forecast_never_raises (prices : list R) (days : Z) :
  prices <> [] -> (1 <= days)%Z ->
  ((length prices < 30)%nat ->
   exists out, generate_forecast prices days = Ok out /\
               _simple_fallback prices days = Ok out) /\
  ((30 <= length prices)%nat ->
   np_mean prices <= 0 \/ 10 / np_mean prices < float_overflow ->
   exists scale_factor forecast,
     _calculate_scale_factor prices = Ok scale_factor /\
     generate_forecast prices days = Ok (descale_if forecast scale_factor) /\
     let scaled_prices :=
       if Rlt_dec 1 scale_factor then _scale_prices prices scale_factor
       else prices in
     match _xgboost_forecast scaled_prices days with
     | Ok f => forecast = f
     | Raise _ =>
       match _ensemble_forecast scaled_prices days with
       | Ok f => forecast = f
       | Raise _ =>
         match _lstm_forecast scaled_prices days 30 with
         | Ok f => forecast = f
         | Raise _ => _simple_fallback scaled_prices days = Ok forecast
         end
       end
     end) /\
  ((30 <= length prices)%nat ->
   0 < np_mean prices -> float_overflow <= 10 / np_mean prices ->
   generate_forecast prices days = Raise OverflowError).
Proof.
  intros Hne _. split; [ | split; [ | apply generate_forecast_overflow]].
  - intros Hs.
    destruct (generate_forecast_returns prices days Hne (or_introl Hs))
      as (out & Hout & _).
    exists out. split; [exact Hout | ].
    rewrite <- generate_forecast_short by assumption. exact Hout.
  - intros Hl Hm. destruct (scale_factor_returns prices Hm) as [sf Hsf].
    destruct (generate_forecast_long prices days sf Hne Hl Hsf)
      as (f & Hgf & _ & Hchain).
    exists sf, f. split; [exact Hsf | ]. split; [exact Hgf | exact Hchain].
Qed.

(** C4.  Below 30 points the orchestrator's result is the trend fallback's on
    the same list, whatever the model libraries would return. *)
Theorem generate_forecast_below_30 (prices : list R) (days : Z) :
  prices <> [] -> (length prices < 30)%nat -> (1 <= days)%Z ->
  generate_forecast prices days = _simple_fallback prices days.
Proof. intros Hne Hlen _. apply generate_forecast_short; assumption. Qed.

(** C3, as the code has it.  On a list with last price [p] and for
    [days >= 1], a forecast returned by the tree-based, the statistical or the
    sequence-model forecaster or by the ensemble combiner has [p] as its first
    element.  The trend fallback has [p] first on a list of fewer than two
    elements; on a longer list its first element is [p] plus the dampened
    slope, clamped to the band around [p]. *)
Theorem forecasters_anchored (prices : list R) (days : Z) (p : R) :
  last prices = Some p -> (1 <= days)%Z ->
  (forall out, _xgboost_forecast prices days = Ok out -> head out = Some p) /\
  (forall out, _prophet_forecast prices days = Ok out -> head out = Some p) /\
  (forall out lookback,
     _lstm_forecast prices days lookback = Ok out -> head out = Some p) /\
  (forall out, _ensemble_forecast prices days = Ok out -> head out = Some p) /\
  (exists out,
     _simple_fallback prices days = Ok out /\
     ((length prices < 2)%nat -> head out = Some p) /\
     ((2 <= length prices)%nat ->
      head out =
      Some (Rmin (Rmax (p + fallback_slope prices) (p * 0.8)) (p * 1.2)))).
Proof.
  intros Hl Hd.
  assert (Hsame : forall q, last prices = Some q -> q = p)
    by (intros q Hq; rewrite Hl in Hq; inversion Hq; reflexivity).
  repeat split.
  - intros out H. destruct (xgboost_forecast_Ok _ _ _ H) as (q & Hq & Hh & _).
    rewrite <- (Hsame q Hq). exact Hh.
  - intros out H. destruct (prophet_forecast_Ok _ _ _ H) as (q & Hq & Hh).
    rewrite <- (Hsame q Hq). exact Hh.
  - intros out lookback H.
    destruct (lstm_forecast_Ok _ _ _ _ H) as (q & Hq & Hh & _).
    rewrite <- (Hsame q Hq). exact Hh.
  - intros out H. destruct (ensemble_forecast_Ok _ _ _ H) as (q & Hq & Hh & _).
    rewrite <- (Hsame q Hq). apply Hh. exact Hd.
  - unfold _simple_fallback. rewrite (py_last_Some _ _ Hl). simpl.
    destruct (Z.to_nat days) as [ | n] eqn:En; [lia | ].
    destruct (length prices <? 2)%nat eqn:E2.
    + eexists. split; [reflexivity | ]. unfold py_repeat. rewrite En. simpl.
      split; [reflexivity | ]. apply Nat.ltb_lt in E2. lia.
    + eexists. split; [reflexivity | ]. simpl.
      split; [apply Nat.ltb_ge in E2; lia | ]. intros _.
      do 2 f_equal. f_equal. ring.
Qed.

End Orchestrator.

(** ** The store: the caller's list is left as it was *)

Lemma load_spec (l : loc) (h : store) (xs : list R) :
  h !! l = Some xs -> load l h = (Ok xs, h).
Proof. intros H. unfold load. rewrite H. reflexivity. Qed.

Lemma alloc_spec (xs : list R) (h : store) :
  exists l, alloc xs h = (Ok l, <[l := xs]> h) /\ h !! l = None.
Proof.
  exists (fresh (dom h)). split; [reflexivity | ].
  apply not_elem_of_dom. apply is_fresh.
Qed.

Lemma append_spec (l : loc) (x : R) (h0 h : store) (cur : list R) :
  h0 ⊆ h -> h0 !! l = None -> h !! l = Some cur ->
  exists h', append l x h = (Ok tt, h') /\ h0 ⊆ h' /\ h' !! l = Some (cur ++ [x]).
Proof.
  intros Hsub Hnone Hcur. eexists. split; [reflexivity | ]. split.
  - apply map_subseteq_spec. intros i v Hi.
    assert (Hne : l <> i) by (intros ->; rewrite Hnone in Hi; discriminate).
    rewrite lookup_alter_ne by exact Hne.
    eapply lookup_weaken; eassumption.
  - rewrite lookup_alter_eq, Hcur. reflexivity.
Qed.

Lemma st_bind_eq {A B : Type} (m : St A) (f : A -> St B) (h : store) :
  (m ≫= f) h =
  match m h with
  | (Ok a, h') => f a h'
  | (Raise e, h') => (Raise e, h')
  end.
Proof. reflexivity. Qed.

Lemma lift_eq {A : Type} (r : result A) (h : store) : lift r h = (r, h).
Proof. reflexivity. Qed.

Lemma runs_weaken (h0 h1 : store) (m : St loc) (h : store)
    (v : result (list R)) :
  h0 ⊆ h1 -> runs_to h1 m h v -> runs_to h0 m h v.
Proof. intros Hsub [H1 Hret]. split; [etransitivity; eassumption | exact Hret]. Qed.

Lemma runs_alloc (h0 : store) (xs : list R) (h : store) :
  h0 ⊆ h -> runs_to h0 (alloc xs) h (Ok xs).
Proof.
  intros Hsub. destruct (alloc_spec xs h) as (l & Hl & Hfresh).
  unfold runs_to. rewrite Hl. simpl. split.
  - etransitivity; [exact Hsub | apply insert_subseteq; exact Hfresh].
  - exists l. split; [reflexivity | apply lookup_insert_eq].
Qed.

Lemma runs_bind {A : Type} (h0 : store) (m : St A) (f : A -> St loc)
    (h h1 : store) (a : A) (v : result (list R)) :
  m h = (Ok a, h1) -> runs_to h0 (f a) h1 v -> runs_to h0 (m ≫= f) h v.
Proof. intros Hm Hf. unfold runs_to. rewrite st_bind_eq, Hm. exact Hf. Qed.

Lemma runs_bind_raise {A : Type} (h0 : store) (m : St A) (f : A -> St loc)
    (h h1 : store) (e : exn) :
  m h = (Raise e, h1) -> h0 ⊆ h1 -> runs_to h0 (m ≫= f) h (Raise e).
Proof.
  intros Hm Hsub. unfold runs_to. rewrite st_bind_eq, Hm.
  split; [exact Hsub | reflexivity].
Qed.

Lemma runs_load (h0 : store) (prices : loc) (xs : list R) (f : list R -> St loc)
    (h : store) (v : result (list R)) :
  h !! prices = Some xs -> runs_to h0 (f xs) h v ->
  runs_to h0 (load prices ≫= f) h v.
Proof. intros Hp Hf. eapply runs_bind; [apply load_spec; exact Hp | exact Hf]. Qed.

Lemma runs_lift_alloc (h0 : store) (r : result (list R)) (h : store) :
  h0 ⊆ h -> runs_to h0 (out ← lift r; alloc out) h r.
Proof.
  intros Hsub. destruct r as [out | e].
  - eapply runs_bind; [reflexivity | apply runs_alloc; exact Hsub].
  - eapply runs_bind_raise; [reflexivity | exact Hsub].
Qed.

Lemma runs_try (h0 : store) (body handler : St loc) (vb vh : result (list R))
    (h : store) :
  runs_to h0 body h vb ->
  (forall h1, h0 ⊆ h1 -> runs_to h0 handler h1 vh) ->
  runs_to h0 (try_except body handler) h
          (match vb with Ok f => Ok f | Raise _ => vh end).
Proof.
  intros [Hsub Hret] Hh. unfold runs_to, try_except.
  destruct (body h) as [r h1]. simpl in Hsub, Hret.
  destruct vb as [f | e]; simpl in Hret.
  - destruct Hret as (l & -> & Hl). split; [exact Hsub | ].
    exists l. split; [reflexivity | exact Hl].
  - subst r. apply Hh. exact Hsub.
Qed.

Section StoreProperties.
Context {L : Libs} {N : Numerics}.

Lemma runs_then_descale (h0 : store) (tier : St loc) (v : result (list R))
    (sf : R) (h : store) :
  runs_to h0 tier h v ->
  runs_to h0 (forecast ← tier; descale_if_st forecast sf) h (then_descale v sf).
Proof.
  intros [Hsub Hret]. destruct (tier h) as [r h1] eqn:Et. simpl in Hsub, Hret.
  destruct v as [f | e]; simpl in Hret.
  - destruct Hret as (l & -> & Hl).
    eapply runs_bind; [exact Et | ].
    unfold descale_if_st, then_descale, descale_if. destruct (Rlt_dec 1 sf).
    + unfold _descale_prices_st. apply (runs_load _ _ _ _ _ _ Hl).
      apply runs_alloc. exact Hsub.
    + split; [exact Hsub | ]. exists l. split; [reflexivity | exact Hl].
  - subst r. eapply runs_bind_raise; eassumption.
Qed.

(** The prediction loop appends to [cp] only: with [cp] outside [h0], every
    list of [h0] is left as it was, and the loop computes what the
    value-level loop computes on the elements of [cp]. *)
Lemma xgb_iterate_st_spec (model : XGBModel) (n : nat) (cp : loc)
    (predictions : list R) (h0 h : store) (cur : list R) :
  h0 ⊆ h -> h0 !! cp = None -> h !! cp = Some cur ->
  (xgb_iterate_st model n cp predictions h).1 = xgb_iterate model n cur predictions /\
  h0 ⊆ (xgb_iterate_st model n cp predictions h).2.
Proof.
  revert predictions h cur.
  induction n as [ | n IH]; intros preds h cur Hsub Hnone Hcur.
  - simpl. split; [reflexivity | exact Hsub].
  - cbn [xgb_iterate_st xgb_iterate].
    rewrite st_bind_eq, (load_spec _ _ _ Hcur), st_bind_eq, lift_eq.
    destruct (last_features cur) as [[row | ] | e]; simpl.
    + rewrite st_bind_eq, lift_eq.
      destruct (xgb_predict model row) as [next | e]; simpl.
      * destruct (append_spec cp next h0 h cur Hsub Hnone Hcur) as (h' & Happ & Hsub' & Hcur').
        rewrite st_bind_eq, Happ. apply IH; assumption.
      * split; [reflexivity | exact Hsub].
    + rewrite st_bind_eq, lift_eq.
      destruct (py_last cur) as [p | e]; simpl.
      * apply IH; assumption.
      * split; [reflexivity | exact Hsub].
    + split; [reflexivity | exact Hsub].
Qed.

Lemma runs_simple_fallback (h0 : store) (prices : loc) (days : Z)
    (xs : list R) (h : store) :
  h0 ⊆ h -> h !! prices = Some xs ->
  runs_to h0 (_simple_fallback_st prices days) h (_simple_fallback xs days).
Proof.
  intros Hsub Hp. unfold _simple_fallback_st. apply (runs_load _ _ _ _ _ _ Hp).
  apply runs_lift_alloc. exact Hsub.
Qed.

Lemma runs_ensemble_forecast (h0 : store) (prices : loc) (days : Z)
    (xs : list R) (h : store) :
  h0 ⊆ h -> h !! prices = Some xs ->
  runs_to h0 (_ensemble_forecast_st prices days) h (_ensemble_forecast xs days).
Proof.
  intros Hsub Hp. unfold _ensemble_forecast_st. apply (runs_load _ _ _ _ _ _ Hp).
  apply runs_lift_alloc. exact Hsub.
Qed.

Lemma runs_lstm_forecast (h0 : store) (prices : loc) (days : Z)
    (lookback : nat) (xs : list R) (h : store) :
  h0 ⊆ h -> h !! prices = Some xs ->
  runs_to h0 (_lstm_forecast_st prices days lookback) h
          (_lstm_forecast xs days lookback).
Proof.
  intros Hsub Hp. unfold _lstm_forecast_st. apply (runs_load _ _ _ _ _ _ Hp).
  apply runs_lift_alloc. exact Hsub.
Qed.

Lemma runs_xgboost_forecast (prices : loc) (days : Z) (xs : list R) (h : store) :
  h !! prices = Some xs ->
  runs_to h (_xgboost_forecast_st prices days) h (_xgboost_forecast xs days).
Proof.
  intros Hp. unfold _xgboost_forecast_st, _xgboost_forecast.
  apply (runs_load _ _ _ _ _ _ Hp).
  destruct (xgb_fit xs) as [model | e]; simpl;
    [ | eapply runs_bind_raise; reflexivity].
  eapply runs_bind; [reflexivity | ].
  destruct (alloc_spec xs h) as (cp & Hcp & Hfresh).
  assert (Hsub1 : h ⊆ <[cp := xs]> h) by (apply insert_subseteq; exact Hfresh).
  eapply runs_bind; [exact Hcp | ].
  destruct (xgb_iterate_st_spec model (Z.to_nat days) cp [] h (<[cp := xs]> h) xs
              Hsub1 Hfresh (lookup_insert_eq _ _ _)) as [Hres Hsub2].
  destruct (xgb_iterate_st model (Z.to_nat days) cp [] (<[cp := xs]> h))
    as [r h2] eqn:Eloop.
  simpl in Hres, Hsub2. rewrite <- Hres.
  destruct r as [preds | e]; simpl;
    [ | eapply runs_bind_raise; [exact Eloop | exact Hsub2]].
  eapply runs_bind; [exact Eloop | ].
  apply (runs_load _ _ xs); [eapply lookup_weaken; eassumption | ].
  apply runs_lift_alloc. exact Hsub2.
Qed.

(** The store-level orchestrator leaves every list of the store it is called
    in as it was, and returns a reference to what the value-level
    orchestrator returns on the elements of [prices]. *)
Lemma runs_generate_forecast (prices : loc) (days : Z) (xs : list R)
    (h : store) :
  h !! prices = Some xs ->
  runs_to h (generate_forecast_st prices days) h (generate_forecast xs days).
Proof.
  intros Hp. unfold generate_forecast_st, generate_forecast.
  apply (runs_load _ _ _ _ _ _ Hp).
  destruct xs as [ | x0 xs']; [apply runs_alloc; reflexivity | ].
  set (xs := x0 :: xs') in *.
  destruct (length xs <? 30)%nat;
    [apply runs_simple_fallback; [reflexivity | exact Hp] | ].
  unfold _calculate_scale_factor_st.
  destruct (_calculate_scale_factor xs) as [sf | e] eqn:Esf;
    [ | eapply runs_bind_raise;
        [rewrite st_bind_eq, (load_spec _ _ _ Hp), lift_eq, Esf; reflexivity
        | reflexivity]].
  eapply runs_bind;
    [rewrite st_bind_eq, (load_spec _ _ _ Hp), lift_eq, Esf; reflexivity | ].
  cbn [mbind result_bind].
  set (sxs := if Rlt_dec 1 sf then _scale_prices xs sf else xs).
  assert (Hscaled : exists sp h1,
             (if Rlt_dec 1 sf then _scale_prices_st prices sf else mret prices) h
             = (Ok sp, h1) /\ h ⊆ h1 /\ h1 !! sp = Some sxs).
  { unfold sxs. destruct (Rlt_dec 1 sf).
    - unfold _scale_prices_st. rewrite st_bind_eq, (load_spec _ _ _ Hp).
      destruct (alloc_spec (map (fun p => p * sf) xs) h) as (l & Hl & Hfresh).
      exists l, (<[l := map (fun p => p * sf) xs]> h).
      split; [exact Hl | ]. split; [apply insert_subseteq; exact Hfresh | ].
      apply lookup_insert_eq.
    - exists prices, h. split; [reflexivity | ]. split; [reflexivity | exact Hp]. }
  destruct Hscaled as (sp & h1 & Hsp & Hsub1 & Hl1).
  eapply runs_bind; [exact Hsp | ].
  apply (runs_weaken h h1); [exact Hsub1 | ].
  assert (Hlater : forall h2, h1 ⊆ h2 -> h2 !! sp = Some sxs)
    by (intros h2 H12; eapply lookup_weaken; eassumption).
  replace (match _xgboost_forecast sxs days with
           | Ok forecast => Ok (descale_if forecast sf)
           | Raise _ => _
           end)
    with (match then_descale (_xgboost_forecast sxs days) sf with
          | Ok f => Ok f
          | Raise _ =>
            match then_descale (_ensemble_forecast sxs days) sf with
            | Ok f => Ok f
            | Raise _ =>
              match then_descale (_lstm_forecast sxs days 30) sf with
              | Ok f => Ok f
              | Raise _ => then_descale (_simple_fallback sxs days) sf
              end
            end
          end).
  2:{ destruct (_xgboost_forecast sxs days); [reflexivity | ].
      destruct (_ensemble_forecast sxs days); [reflexivity | ].
      destruct (_lstm_forecast sxs days 30); [reflexivity | ].
      destruct (_simple_fallback sxs days); reflexivity. }
  apply runs_try; [apply runs_then_descale, runs_xgboost_forecast, Hl1 | ].
  intros h2 H2.
  apply runs_try;
    [apply runs_then_descale, runs_ensemble_forecast; [exact H2 | apply Hlater, H2] | ].
  intros h3 H3.
  apply runs_try;
    [apply runs_then_descale, runs_lstm_forecast; [exact H3 | apply Hlater, H3] | ].
  intros h4 H4.
  apply runs_then_descale, runs_simple_fallback; [exact H4 | apply Hlater, H4].
Qed.

End StoreProperties.

(** C10.  Whatever the model libraries do and whatever [days] is, after
    [generate_forecast] has run the caller's list object holds the elements
    it held before, in the same order, and so does every other list of the
    caller's store. *)
Theorem generate_forecast_keeps_input {L : Libs} {N : Numerics} (h : store)
    (prices : loc)
    (days : Z) (xs : list R) :
  h !! prices = Some xs ->
  (generate_forecast_st prices days h).2 !! prices = Some xs /\
  h ⊆ (generate_forecast_st prices days h).2.
Proof.
  intros Hp. destruct (runs_generate_forecast prices days xs h Hp) as [Hsub _].
  split; [eapply lookup_weaken; eassumption | exact Hsub].
Qed.

Lemma generate_forecast_keeps_input_witness :
  (generate_forecast_st (L := libs_constant 105) (N := exact_numerics)
     1%positive 7 {[1%positive := flat_prices]}).2 !! 1%positive
  = Some flat_prices /\
  ({[1%positive := flat_prices]} : store) ⊆
  (generate_forecast_st (L := libs_constant 105) (N := exact_numerics)
     1%positive 7 {[1%positive := flat_prices]}).2.
Proof.
  apply (generate_forecast_keeps_input (L := libs_constant 105)
           (N := exact_numerics)).
  apply lookup_singleton_eq.
Defined.

(** The store does record an [append]: the prediction loop run on the
    caller's list itself, without the copy, would grow it. *)
Example loop_without_copy_grows_input :
  (xgb_iterate_st (L := libs_constant 105) tt 1 1%positive []
     {[1%positive := [100.0; 102.0]]}).2 !! 1%positive
  = Some [100.0; 102.0; 105].
Proof.
  cbn [xgb_iterate_st].
  rewrite st_bind_eq, (load_spec _ _ [100.0; 102.0]) by apply lookup_singleton_eq.
  simpl. rewrite lookup_alter_eq, lookup_singleton_eq. reflexivity.
Qed.

(** ** Concrete runs *)

Lemma flat_prices_mean :
  np_mean (Numerics := exact_numerics) flat_prices = 100.
Proof.
  change (mean flat_prices = 100). unfold flat_prices.
  rewrite mean_repeat by lia. lra.
Qed.

Lemma tiny_prices_mean (n : nat) :
  np_mean (Numerics := exact_numerics) (repeat 1e-320 (S n)) = 1e-320.
Proof. change (mean (repeat 1e-320 (S n)) = 1e-320). apply mean_repeat. lia. Qed.

Lemma generate_forecast_length_witness :
  exists out,
    generate_forecast (L := libs_unavailable) (N := exact_numerics)
      flat_prices 3 = Ok out /\
    Z.of_nat (length out) = 3%Z /\ out <> [].
Proof.
  apply (proj1 (proj2 (generate_forecast_length (L := libs_unavailable)
                         (N := exact_numerics))));
    [discriminate | lia | ].
  right. right. rewrite flat_prices_mean. unfold float_overflow. lra.
Defined.

(** C1, at an input where the claim fails: thirty prices of [1e-320] are a
    non-empty list, and the call returns no list; with every model library
    present it raises before any of them is consulted. *)
Lemma generate_forecast_tiny_prices_no_list :
  repeat 1e-320 30 <> [] /\
  generate_forecast (L := libs_constant 105) (N := exact_numerics)
    (repeat 1e-320 30) 3 = Raise OverflowError.
Proof.
  split; [discriminate | ].
  apply generate_forecast_overflow.
  - rewrite repeat_length. lia.
  - rewrite (tiny_prices_mean 29). lra.
  - rewrite (tiny_prices_mean 29). unfold float_overflow. lra.
Qed.

Lemma generate_forecast_never_raises_witness :
  exists scale_factor forecast,
    _calculate_scale_factor (N := exact_numerics) flat_prices
    = Ok scale_factor /\
    generate_forecast (L := libs_unavailable) (N := exact_numerics)
      flat_prices 7 = Ok (descale_if forecast scale_factor).
Proof.
  destruct (generate_forecast_never_raises (L := libs_unavailable)
              (N := exact_numerics) flat_prices 7)
    as (_ & Hlong & _); [discriminate | lia | ].
  destruct Hlong as (sf & f & Hsf & Hgf & _).
  - simpl. lia.
  - right. rewrite flat_prices_mean. unfold float_overflow. lra.
  - exists sf, f. split; [exact Hsf | exact Hgf].
Defined.

(** C2, at an input where the claim fails: on forty prices of [1e-320] and
    with [days = 7] an exception escapes the orchestrator. *)
Lemma generate_forecast_overflow_escapes :
  repeat 1e-320 40 <> [] /\ (1 <= 7)%Z /\
  generate_forecast (L := libs_unavailable) (N := exact_numerics)
    (repeat 1e-320 40) 7 = Raise OverflowError.
Proof.
  split; [discriminate | ]. split; [lia | ].
  apply generate_forecast_overflow.
  - rewrite repeat_length. lia.
  - rewrite (tiny_prices_mean 39). lra.
  - rewrite (tiny_prices_mean 39). unfold float_overflow. lra.
Qed.

Lemma generate_forecast_below_30_witness :
  generate_forecast (L := libs_constant 105) (N := exact_numerics)
    test_prices 3 =
  _simple_fallback test_prices 3.
Proof.
  apply (generate_forecast_below_30 (L := libs_constant 105)
           (N := exact_numerics));
    [discriminate | simpl; lia | lia].
Defined.

(** With every library present and predicting 105, the tree-based tier
    returns its predictions shifted onto the last price. *)
Example xgboost_constant_run :
  _xgboost_forecast (L := libs_constant 105) [100.0; 102.0] 2
  = Ok [105 + (102.0 - 105); 105 + (102.0 - 105)].
Proof. reflexivity. Qed.

Lemma forecasters_anchored_witness :
  exists out,
    _xgboost_forecast (L := libs_constant 105) [100.0; 102.0] 2 = Ok out /\
    head out = Some 102.0.
Proof.
  exists [105 + (102.0 - 105); 105 + (102.0 - 105)].
  split; [reflexivity | ].
  apply (proj1 (forecasters_anchored (L := libs_constant 105)
                  [100.0; 102.0] 2 102.0 eq_refl ltac:(lia))).
  reflexivity.
Defined.

(** ** End-to-end runs on constant series

    The runs hold for every implementation of binary64: the means of these
    series are far from 0.01. *)

Lemma dot_repeat (w : list R) (c : R) (n : nat) :
  length w = n -> dot w (repeat c n) = c * fold_right Rplus 0 w.
Proof.
  revert n. induction w as [ | a w IH]; intros n Hn; subst n; unfold dot in *; simpl.
  - ring.
  - rewrite IH by reflexivity. ring.
Qed.

Lemma dot_times_repeat (w x : list R) (c : R) (n : nat) :
  length x = n ->
  dot w (map (fun p => fst p * snd p) (combine x (repeat c n))) = c * dot w x.
Proof.
  revert x n. induction w as [ | a w IH]; intros x n Hn; subst n; unfold dot in *.
  - simpl. ring.
  - destruct x as [ | b x]; simpl; [ring | ].
    rewrite IH by reflexivity. ring.
Qed.

Lemma polyfit_constant_slope (x w : list R) (c : R) (n : nat) :
  length x = n -> length w = n ->
  fst (np_polyfit1 x (repeat c n) w) = 0.
Proof.
  intros Hx Hw. unfold np_polyfit1. simpl fst.
  rewrite dot_repeat by (rewrite length_map; exact Hw).
  rewrite dot_times_repeat by exact Hx.
  unfold Rdiv. ring.
Qed.

Lemma suffix_repeat (c : R) (k n : nat) :
  (k <= n)%nat -> (n = 0 \/ 1 <= k)%nat ->
  py_suffix k (repeat c n) = repeat c k.
Proof.
  intros Hk Hz. unfold py_suffix. destruct k as [ | k].
  - destruct Hz as [-> | Hz]; [reflexivity | lia].
  - rewrite repeat_length.
    replace n with ((n - S k) + S k)%nat at 2 by lia.
    rewrite repeat_app, skipn_app, repeat_length, Nat.sub_diag.
    rewrite skipn_all2 by (rewrite repeat_length; lia). reflexivity.
Qed.

Lemma fallback_slope_constant (c : R) (n : nat) : fallback_slope (repeat c n) = 0.
Proof.
  unfold fallback_slope. rewrite repeat_length.
  rewrite suffix_repeat by lia. rewrite repeat_length.
  rewrite polyfit_constant_slope; [ring | | ].
  - unfold np_arange. rewrite length_map, length_seq. reflexivity.
  - unfold np_linspace01. rewrite !length_map, length_seq. reflexivity.
Qed.

Lemma fallback_loop_flat (c : R) (n i : nat) :
  0 <= c -> fallback_loop 0 c i n c = repeat c n.
Proof.
  intros Hc. revert i. induction n as [ | n IH]; intros i; [reflexivity | ].
  cbn [fallback_loop repeat].
  assert (Hstep : Rmin (Rmax (c + 0 * (1 - 0.05 * INR i)) (c * 0.8)) (c * 1.2) = c).
  { replace (c + 0 * (1 - 0.05 * INR i)) with c by ring.
    unfold Rmin, Rmax. repeat destruct (Rle_dec _ _); lra. }
  rewrite Hstep, IH. reflexivity.
Qed.

Lemma last_repeat (c : R) (n : nat) : last (repeat c (S n)) = Some c.
Proof.
  induction n as [ | n IH]; [reflexivity | ].
  change (repeat c (S (S n))) with (c :: repeat c (S n)).
  rewrite last_cons, IH. reflexivity.
Qed.

(** On a constant series of non-negative price the trend is flat. *)
Lemma simple_fallback_constant (c : R) (n : nat) (days : Z) :
  0 <= c -> (1 <= n)%nat ->
  _simple_fallback (repeat c n) days = Ok (py_repeat c days).
Proof.
  intros Hc Hn. destruct n as [ | n]; [lia | ].
  unfold _simple_fallback. rewrite (py_last_Some _ _ (last_repeat c n)).
  unfold mbind, result_bind.
  destruct (length (repeat c (S n)) <? 2)%nat; [reflexivity | ].
  rewrite fallback_slope_constant, fallback_loop_flat by exact Hc. reflexivity.
Qed.

Example simple_fallback_flat_run :
  _simple_fallback flat_prices 3 = Ok [100.0; 100.0; 100.0].
Proof. unfold flat_prices. rewrite simple_fallback_constant by (lra || lia). reflexivity. Qed.

Section Runs.
Context {N : Numerics}.

Lemma scale_factor_flat : _calculate_scale_factor flat_prices = Ok 1.
Proof.
  apply scale_factor_high. unfold flat_prices.
  pose proof (np_mean_repeat_near 100.0 30 ltac:(lra) ltac:(lia) ltac:(lia)).
  lra.
Qed.

(** No model library installed: the tree-based tier raises, and the ensemble,
    left with the trend fallback as its only member, answers. *)
Example generate_forecast_without_libraries :
  generate_forecast (L := libs_unavailable) flat_prices 3
  = Ok [100.0; 100.0; 100.0].
Proof.
  unfold generate_forecast.
  change (length flat_prices <? 30)%nat with false.
  rewrite scale_factor_flat. cbn [mbind result_bind].
  destruct (Rlt_dec 1 1) as [Habs | _]; [lra | ].
  unfold flat_prices at 1. cbn [repeat Nat.sub].
  change (100.0 :: repeat 100.0 29) with flat_prices.
  change (_xgboost_forecast (L := libs_unavailable) flat_prices 3)
    with (@Raise (list R) ModelError).
  cbv beta iota.
  unfold _ensemble_forecast.
  change (_prophet_forecast (L := libs_unavailable) flat_prices 3)
    with (@Raise (list R) ModelError).
  change (arima_predict (Libs := libs_unavailable) flat_prices 3)
    with (@Raise (list R) ModelError).
  rewrite simple_fallback_flat_run.
  unfold descale_if. destruct (Rlt_dec 1 1) as [Habs | _]; [lra | ].
  assert (Hl : py_last flat_prices = Ok 100.0)
    by (apply py_last_Some; apply (last_repeat 100.0 29)).
  change (Z.to_nat 3) with 3%nat.
  cbn [try_member fst snd app length firstn map ensemble_loop seq day_terms
       py_nth nth_error mbind result_bind].
  unfold anchor. rewrite Hl.
  cbn [mbind result_bind py_first head map py_sum fold_left].
  do 2 f_equal; [ | f_equal; [ | f_equal]]; lra.
Qed.

Lemma scale_factor_shib_series :
  _calculate_scale_factor (repeat 0.000018 30) = Ok 1000000.
Proof. apply scale_factor_shib; lia. Qed.

(** A sub-cent coin with every library present: the series is scaled by
    [10 ** 6], the tree-based tier's constant prediction 20 is shifted onto
    the scaled last price 18, and the result is descaled. *)
Example generate_forecast_low_value_run :
  generate_forecast (L := libs_constant 20) (repeat 0.000018 30) 2
  = Ok [0.000018; 0.000018].
Proof.
  unfold generate_forecast.
  change (length (repeat 0.000018%R 30) <? 30)%nat with false.
  rewrite scale_factor_shib_series. cbn [mbind result_bind].
  destruct (Rlt_dec 1 1000000) as [_ | Habs]; [ | lra].
  cbn [repeat].
  unfold _xgboost_forecast.
  change (xgb_fit (Libs := libs_constant 20)) with (fun _ : list R => Ok tt).
  cbn [mbind result_bind]. change (Z.to_nat 2) with 2%nat.
  cbn [xgb_iterate].
  change (last_features (Libs := libs_constant 20))
    with (fun _ : list R => Ok (Some tt)).
  change (xgb_predict (Libs := libs_constant 20))
    with (fun (_ _ : unit) => Ok 20).
  cbn [mbind result_bind app].
  unfold anchor.
  assert (Hl : py_last (_scale_prices (repeat 0.000018 30) 1000000)
               = Ok (0.000018 * 1000000)).
  { apply py_last_Some. unfold _scale_prices.
    change (map (fun p => p * 1000000) (repeat 0.000018 30))
      with (repeat (0.000018 * 1000000) 30).
    apply (last_repeat _ 29). }
  cbn [repeat] in Hl. rewrite Hl.
  cbn [mbind result_bind py_first head map].
  unfold descale_if. destruct (Rlt_dec 1 1000000) as [_ | Habs]; [ | lra].
  unfold _descale_prices. cbn [map].
  do 2 f_equal; [ | f_equal]; lra.
Qed.



(** Every model tier raises: the orchestrator answers with the trend
    fallback. *)
Example generate_forecast_all_tiers_fail :
  _xgboost_forecast (L := libs_short_arima) flat_prices 3 = Raise ModelError /\
  _ensemble_forecast (L := libs_short_arima) flat_prices 3 = Raise IndexError /\
  _lstm_forecast (L := libs_short_arima) flat_prices 3 30 = Raise ModelError /\
  generate_forecast (L := libs_short_arima) flat_prices 3
  = Ok [100.0; 100.0; 100.0].
Proof.
  assert (He : _ensemble_forecast (L := libs_short_arima) flat_prices 3
               = Raise IndexError).
  { unfold _ensemble_forecast.
    change (_prophet_forecast (L := libs_short_arima) flat_prices 3)
      with (@Raise (list R) ModelError).
    change (arima_predict (Libs := libs_short_arima) flat_prices 3)
      with (@Ok (list R) []).
    rewrite simple_fallback_flat_run. reflexivity. }
  split; [reflexivity | ]. split; [exact He | ]. split; [reflexivity | ].
  unfold generate_forecast.
  change (length flat_prices <? 30)%nat with false.
  rewrite scale_factor_flat. cbn [mbind result_bind].
  destruct (Rlt_dec 1 1) as [Habs | _]; [lra | ].
  unfold flat_prices at 1. cbn [repeat Nat.sub].
  change (100.0 :: repeat 100.0 29) with flat_prices.
  change (_xgboost_forecast (L := libs_short_arima) flat_prices 3)
    with (@Raise (list R) ModelError).
  cbv beta iota. rewrite He.
  change (_lstm_forecast (L := libs_short_arima) flat_prices 3 30)
    with (@Raise (list R) ModelError).
  cbv beta iota. rewrite simple_fallback_flat_run.
  unfold descale_if. destruct (Rlt_dec 1 1) as [Habs | _]; [lra | reflexivity].
Qed.

End Runs.

(** ** The round trip in rounded arithmetic *)

(** With the product and the quotient each rounded, the round trip of one
    price is within a relative error of [1e-9]. *)
Lemma descale_scale_rounded (p f m q : R) :
  0 < f -> rounds_to (p * f) m -> rounds_to (m / f) q ->
  Rabs (q - p) <= 1e-9 * Rabs p.
Proof.
  intros Hf (d1 & Hd1 & Hm) (d2 & Hd2 & Hq).
  assert (Hqp : q - p = p * (d1 + d2 + d1 * d2)) by (subst; field; lra).
  rewrite Hqp, Rabs_mult, Rmult_comm.
  apply Rmult_le_compat_r; [apply Rabs_pos | ].
  unfold unit_roundoff in *.
  assert (H1 : - / 9007199254740992 <= d1 <= / 9007199254740992)
    by (unfold Rabs in Hd1; destruct (Rcase_abs d1); lra).
  assert (H2 : - / 9007199254740992 <= d2 <= / 9007199254740992)
    by (unfold Rabs in Hd2; destruct (Rcase_abs d2); lra).
  apply Rabs_le. split; nra.
Qed.
